(** * The merge engine of my-app and its HTTP boundary

    A shallow embedding of [src/lib/file-processor.ts] (the function
    [mergeFiles] and the three interfaces it works on) and of the merge
    route handler [POST], followed by the properties the specification
    states about them.

    Modelling choices.
    - A row, [Record<string, any>], is the finite map of its own properties.
      Its prototype is [Object.prototype]: [row[k]] on a name the row does
      not own evaluates to what [Object.prototype] holds under that name,
      [undefined] for all names but its twelve members.  [mergedRow[k] = v]
      defines or overwrites the own property [k], except under the name
      [__proto__], where the assignment goes to the setter inherited from
      [Object.prototype] and stores no field.
    - [new Set(..)] is a [gset string], [new Map(..)] a [gmap] built by
      successive insertion; [forEach] over an array with a body that mutates
      a local object is a left fold threading that object.
    - An exception is the [Throw] completion of a small error monad; the
      handler's [try]/[catch] is a match on the completion of its body.
    - Numbers are only carried around by the merge, never computed with; they
      are represented by rationals. *)

From Stdlib Require Import Ascii QArith_base Qround.
From stdpp Require Import gmap strings list fin_maps.

Open Scope string_scope.
Open Scope list_scope.
Set Warnings "-register-all,-clear-no-such-hyp".

(** * Part I: the program *)

(** ** JavaScript values *)

(** The values a JSON payload can hold, plus what a read of a property that
    an object does not own can yield: [undefined], or a member of
    [Object.prototype], that is the prototype object itself (under
    [__proto__]) or one of its built-in functions.  The last two never occur
    in a JSON payload. *)
Inductive value : Type :=
  | VUndefined
  | VNull
  | VBool (b : bool)
  | VNumber (q : Q)
  | VString (s : string)
  | VArray (items : list value)
  | VObject (fields : list (string * value))
  | VObjectPrototype
  | VBuiltin (member : string).

(** The explicit "no value" marker written by [mergeFiles] is [null]. *)
Definition no_value : value := VNull.

(** The names of the built-in functions of [Object.prototype]; its twelfth
    member is the accessor [__proto__]. *)
Definition objectPrototypeMethods : list string :=
  [ "constructor"; "hasOwnProperty"; "isPrototypeOf"; "propertyIsEnumerable";
    "toLocaleString"; "toString"; "valueOf";
    "__defineGetter__"; "__defineSetter__"; "__lookupGetter__";
    "__lookupSetter__" ].

(** What an object whose prototype is [Object.prototype] inherits under the
    name [k]. *)
Definition inherited (k : string) : value :=
  if decide (k = "__proto__") then VObjectPrototype
  else if decide (k ∈ objectPrototypeMethods) then VBuiltin k
  else VUndefined.

(** [row[k]]: the own property, or else what the row inherits. *)
Definition get (row : gmap string value) (k : string) : value :=
  default (inherited k) (row !! k).

(** [obj[k] = v] on an object created by [{}], as far as its own properties
    go.  Every name but [__proto__] becomes or stays an own property.
    Under [__proto__] the assignment reaches the setter of
    [Object.prototype] and no field is stored.  Given an object or [null]
    the setter replaces the prototype of [obj]; what that changes for the
    reads and writes that follow is not modelled, and the properties about
    the fields of rows are stated for column names other than [__proto__],
    where the setter is never reached. *)
Definition setProperty (obj : gmap string value) (k : string) (v : value)
  : gmap string value :=
  if decide (k = "__proto__") then obj else <[k := v]> obj.

(** [xs.forEach(x => body)] where the body updates a local accumulator. *)
Definition forEach {A S : Type} (xs : list A) (body : S → A → S) (s : S) : S :=
  foldl body s xs.

(** [arr.push(x)] *)
Definition push {A : Type} (arr : list A) (x : A) : list A := arr ++ [x].

(** ** The interfaces of file-processor.ts *)

(** [rowCount] is a number supplied with the file; [mergeFiles] never reads
    it. *)
Module ParsedFile.
Record t : Type := mk {
  name : string;
  headers : list string;
  data : list (gmap string value);
  rowCount : Q
}.
End ParsedFile.

Module ColumnMapping.
Record t : Type := mk {
  column1 : string;
  column2 : string;
  confidence : Q;
  reason : string;
  mergedName : string
}.
End ColumnMapping.

(** [rowCount] is set from the [length] of an array, a natural number. *)
Module MergeResult.
Record t : Type := mk {
  headers : list string;
  data : list (gmap string value);
  mappings : list ColumnMapping.t;
  rowCount : nat;
  sourceFiles : list string
}.
End MergeResult.

Import ColumnMapping.

(** ** mergeFiles *)

(** [new Map(mappings.map((m) => [m.column2, {column1, mergedName}]))]:
    entries are set in order, a later entry replacing an earlier one with the
    same key. *)
Definition mappingMap_of (mappings : list ColumnMapping.t)
  : gmap string (string * string) :=
  foldl (λ acc m, <[column2 m := (column1 m, mergedName m)]> acc) ∅ mappings.

(** [new Set(mappings.map((m) => m.column1))] *)
Definition usedColumns1_of (mappings : list ColumnMapping.t) : gset string :=
  list_to_set (column1 <$> mappings).

(** [mergedHeaders], lines 91-95. *)
Definition mergedHeaders (file1 file2 : ParsedFile.t)
    (mappings : list ColumnMapping.t) : list string :=
  let mappingMap := mappingMap_of mappings in
  let usedColumns1 := usedColumns1_of mappings in
  filter (λ h, h ∉ usedColumns1) (ParsedFile.headers file1)
  ++ (mergedName <$> mappings)
  ++ filter (λ h, h ∉ dom mappingMap) (ParsedFile.headers file2).

(** The body of [file1.data.forEach], lines 102-121: the merged row built
    for one row of file1. *)
Definition mergedRow1 (file1 file2 : ParsedFile.t)
    (mappings : list ColumnMapping.t) (row : gmap string value)
  : gmap string value :=
  let mappingMap := mappingMap_of mappings in
  let usedColumns1 := usedColumns1_of mappings in
  let mergedRow : gmap string value := ∅ in
  let mergedRow :=
    forEach (ParsedFile.headers file1) (λ mergedRow header,
      if decide (header ∉ usedColumns1)
      then setProperty mergedRow header (get row header)
      else mergedRow) mergedRow in
  let mergedRow :=
    forEach mappings (λ mergedRow mapping,
      setProperty mergedRow (mergedName mapping) (get row (column1 mapping)))
      mergedRow in
  let mergedRow :=
    forEach (ParsedFile.headers file2) (λ mergedRow header,
      if decide (header ∉ dom mappingMap)
      then setProperty mergedRow header VNull
      else mergedRow) mergedRow in
  mergedRow.

(** The body of [file2.data.forEach], lines 128-147. *)
Definition mergedRow2 (file1 file2 : ParsedFile.t)
    (mappings : list ColumnMapping.t) (row : gmap string value)
  : gmap string value :=
  let mappingMap := mappingMap_of mappings in
  let usedColumns1 := usedColumns1_of mappings in
  let mergedRow : gmap string value := ∅ in
  let mergedRow :=
    forEach (ParsedFile.headers file1) (λ mergedRow header,
      if decide (header ∉ usedColumns1)
      then setProperty mergedRow header VNull
      else mergedRow) mergedRow in
  let mergedRow :=
    forEach mappings (λ mergedRow mapping,
      setProperty mergedRow (mergedName mapping) (get row (column2 mapping)))
      mergedRow in
  let mergedRow :=
    forEach (ParsedFile.headers file2) (λ mergedRow header,
      if decide (header ∉ dom mappingMap)
      then setProperty mergedRow header (get row header)
      else mergedRow) mergedRow in
  mergedRow.

Definition mergeFiles (file1 file2 : ParsedFile.t)
    (mappings : list ColumnMapping.t) : MergeResult.t :=
  let mergedData : list (gmap string value) := [] in
  let mergedData :=
    forEach (ParsedFile.data file1) (λ mergedData row,
      push mergedData (mergedRow1 file1 file2 mappings row)) mergedData in
  let mergedData :=
    forEach (ParsedFile.data file2) (λ mergedData row,
      push mergedData (mergedRow2 file1 file2 mappings row)) mergedData in
  {| MergeResult.headers := mergedHeaders file1 file2 mappings;
     MergeResult.data := mergedData;
     MergeResult.mappings := mappings;
     MergeResult.rowCount := length mergedData;
     MergeResult.sourceFiles := [ParsedFile.name file1; ParsedFile.name file2] |}.

(** ** The merge route: [POST]

    The handler reads the JSON body of the request, validates it, calls the
    merge engine and answers; a [try]/[catch] around the whole body turns
    every exception into one generic answer. *)

(** The outcome of evaluating JavaScript code: a value, or an exception. *)
Inductive completion (A : Type) : Type :=
  | Return (a : A)
  | Throw.
Arguments Return {A} a.
Arguments Throw {A}.

#[global] Instance completion_ret : MRet completion := @Return.

#[global] Instance completion_bind : MBind completion :=
  λ A B k c,
    match c with
    | Return a => k a
    | Throw => Throw
    end.

(** [!v] is [negb (truthy v)]. *)
Definition truthy (v : value) : bool :=
  match v with
  | VUndefined | VNull => false
  | VBool b => b
  | VNumber q => negb (Qnum q =? 0)%Z
  | VString s => negb (bool_decide (s = ""))
  | VArray _ | VObject _ | VObjectPrototype | VBuiltin _ => true
  end.

(** [Array.isArray(v)] *)
Definition isArray (v : value) : bool :=
  match v with
  | VArray _ => true
  | _ => false
  end.

(** The own property [k] of an object parsed from JSON: when a name occurs
    more than once the last occurrence counts; a name that does not occur
    reads as [undefined]. *)
Definition ownProperty (fields : list (string * value)) (k : string) : value :=
  foldl (λ acc kv, if decide (kv.1 = k) then kv.2 else acc) VUndefined fields.

(** [v.k] and the destructuring [const { k } = v], for the property names
    the handler reads ([file1], [file2], [mappings], [name], [headers],
    [data], [rowCount]): a [TypeError] on [null] and [undefined], the own
    property on an object, [undefined] on every other value. *)
Definition getProperty (v : value) (k : string) : completion value :=
  match v with
  | VUndefined | VNull => Throw
  | VObject fields => Return (ownProperty fields k)
  | _ => Return VUndefined
  end.

(** The object literals of lines 18-30: the four properties of a file of the
    request, whatever they are. *)
Module RequestFile.
Record t : Type := mk {
  name : value;
  headers : value;
  data : value;
  rowCount : value
}.
End RequestFile.

Inductive responseBody (Out : Type) : Type :=
  | ErrorBody (error : string)
  | ResultBody (result : Out).
Arguments ErrorBody {Out} error.
Arguments ResultBody {Out} result.

(** [NextResponse.json(body, { status })]; the status is 200 when omitted. *)
Record response (Out : Type) : Type := mkResponse {
  body : responseBody Out;
  status : nat
}.
Arguments mkResponse {Out} body status.
Arguments body {Out} r.
Arguments status {Out} r.

(** The [try] block of the handler.  [request_json] is the completion of
    [await request.json()]; [engine] is [mergeFiles] as the JavaScript
    runtime executes it on the payload, where the TypeScript annotations
    have been erased. *)
Definition POST_try {Out : Type}
    (engine : RequestFile.t → RequestFile.t → list value → completion Out)
    (request_json : completion value) : completion (response Out) :=
  body ← request_json;
  file1 ← getProperty body "file1";
  file2 ← getProperty body "file2";
  mappings ← getProperty body "mappings";
  if negb (truthy file1) || negb (truthy file2) then
    Return (mkResponse (ErrorBody "Both files are required") 400)
  else if negb (isArray mappings) then
    Return (mkResponse (ErrorBody "Mappings must be an array") 400)
  else
    name1 ← getProperty file1 "name";
    headers1 ← getProperty file1 "headers";
    data1 ← getProperty file1 "data";
    rowCount1 ← getProperty file1 "rowCount";
    let parsedFile1 := RequestFile.mk name1 headers1 data1 rowCount1 in
    name2 ← getProperty file2 "name";
    headers2 ← getProperty file2 "headers";
    data2 ← getProperty file2 "data";
    rowCount2 ← getProperty file2 "rowCount";
    let parsedFile2 := RequestFile.mk name2 headers2 data2 rowCount2 in
    result ← engine parsedFile1 parsedFile2
               (match mappings with VArray ms => ms | _ => [] end);
    Return (mkResponse (ResultBody result) 200).

(** The handler: the [try] block, and the [catch] clause for whatever it
    throws. *)
Definition POST {Out : Type}
    (engine : RequestFile.t → RequestFile.t → list value → completion Out)
    (request_json : completion value) : response Out :=
  match POST_try engine request_json with
  | Return r => r
  | Throw => mkResponse (ErrorBody "Failed to merge files") 500
  end.

(** ** The engine on payloads of the declared types

    [POST] hands the engine whatever the request carried.  On payloads that
    have the shape of [ParsedFile] and [ColumnMapping[]] the engine is
    [mergeFiles].  On other payloads the erased program may return as well
    as throw (it never reads [rowCount], [confidence] or [reason], for
    instance); this instance answers [Throw] there and does not describe
    the program on them.  It is used below at a payload of the declared
    shape and at bodies that the handler answers before it calls the
    engine.  The properties of the route are proved for every engine. *)

Definition asString (v : value) : option string :=
  match v with VString s => Some s | _ => None end.

Definition asNumber (v : value) : option Q :=
  match v with VNumber q => Some q | _ => None end.

Definition asArray (v : value) : option (list value) :=
  match v with VArray items => Some items | _ => None end.

(** A JSON object as a row: its members, a repeated name keeping its last
    value. *)
Definition asRow (v : value) : option (gmap string value) :=
  match v with
  | VObject fields => Some (foldl (λ acc kv, <[kv.1 := kv.2]> acc) ∅ fields)
  | _ => None
  end.

Definition asParsedFile (f : RequestFile.t) : option ParsedFile.t :=
  name ← asString (RequestFile.name f);
  headers ← asArray (RequestFile.headers f) ≫= mapM asString;
  data ← asArray (RequestFile.data f) ≫= mapM asRow;
  rowCount ← asNumber (RequestFile.rowCount f);
  Some (ParsedFile.mk name headers data rowCount).

Definition asColumnMapping (v : value) : option ColumnMapping.t :=
  match v with
  | VObject fields =>
      c1 ← asString (ownProperty fields "column1");
      c2 ← asString (ownProperty fields "column2");
      conf ← asNumber (ownProperty fields "confidence");
      why ← asString (ownProperty fields "reason");
      merged ← asString (ownProperty fields "mergedName");
      Some (ColumnMapping.mk c1 c2 conf why merged)
  | _ => None
  end.

Definition mergeFiles_on_payload (file1 file2 : RequestFile.t)
    (mappings : list value) : completion MergeResult.t :=
  match asParsedFile file1, asParsedFile file2, mapM asColumnMapping mappings with
  | Some parsedFile1, Some parsedFile2, Some ms =>
      Return (mergeFiles parsedFile1 parsedFile2 ms)
  | _, _, _ => Throw
  end.

(** * Part II: the vocabulary of the specification *)

(** ** Columns and correspondence lists *)

(** A column of file1 (resp. file2) that no correspondence consumes. *)
Definition unmapped1 (file1 : ParsedFile.t) (mappings : list ColumnMapping.t)
    (h : string) : Prop :=
  h ∈ ParsedFile.headers file1 ∧ h ∉ column1 <$> mappings.

Definition unmapped2 (file2 : ParsedFile.t) (mappings : list ColumnMapping.t)
    (h : string) : Prop :=
  h ∈ ParsedFile.headers file2 ∧ h ∉ column2 <$> mappings.

#[global] Instance unmapped1_dec file1 mappings h :
  Decision (unmapped1 file1 mappings h).
Proof. unfold unmapped1. apply _. Defined.

#[global] Instance unmapped2_dec file2 mappings h :
  Decision (unmapped2 file2 mappings h).
Proof. unfold unmapped2. apply _. Defined.

(** A correspondence list that satisfies the invariants of the data model:
    every [column1] is a header of file1 and every [column2] a header of
    file2, no source column is consumed twice, and the merged names are
    pairwise distinct. *)
Definition valid_correspondences (file1 file2 : ParsedFile.t)
    (mappings : list ColumnMapping.t) : Prop :=
  Forall (λ m, column1 m ∈ ParsedFile.headers file1
               ∧ column2 m ∈ ParsedFile.headers file2) mappings
  ∧ NoDup (column1 <$> mappings)
  ∧ NoDup (column2 <$> mappings)
  ∧ NoDup (mergedName <$> mappings).

#[global] Instance valid_correspondences_dec file1 file2 mappings :
  Decision (valid_correspondences file1 file2 mappings).
Proof. unfold valid_correspondences. apply _. Defined.

(** No output column is named [__proto__]: no unmapped column of either
    file and no merged name. *)
Definition plainOutputNames (file1 file2 : ParsedFile.t)
    (mappings : list ColumnMapping.t) : Prop :=
  "__proto__" ∉ mergedHeaders file1 file2 mappings.

#[global] Instance plainOutputNames_dec file1 file2 mappings :
  Decision (plainOutputNames file1 file2 mappings).
Proof. unfold plainOutputNames. apply _. Defined.

(** A name under which every row inherits something from
    [Object.prototype]. *)
Definition inheritedName (k : string) : Prop :=
  k = "__proto__" ∨ k ∈ objectPrototypeMethods.

#[global] Instance inheritedName_dec k : Decision (inheritedName k).
Proof. unfold inheritedName. apply _. Defined.



(** ** Payloads of the route *)

(** What the payload carries under [k]; nothing when it is not an object. *)
Definition payloadField (payload : value) (k : string) : value :=
  match payload with
  | VObject fields => ownProperty fields k
  | _ => VUndefined
  end.

(** Either dataset is missing (absent or otherwise falsy), or the mappings
    are not a list. *)
Definition invalidPayload (payload : value) : Prop :=
  truthy (payloadField payload "file1") = false
  ∨ truthy (payloadField payload "file2") = false
  ∨ isArray (payloadField payload "mappings") = false.

#[global] Instance invalidPayload_dec payload : Decision (invalidPayload payload).
Proof. unfold invalidPayload. apply _. Defined.

(** The file object the handler builds from a file of the request. *)
Definition requestFile (file : value) : RequestFile.t :=
  RequestFile.mk (payloadField file "name") (payloadField file "headers")
                 (payloadField file "data") (payloadField file "rowCount").

Definition items (v : value) : list value :=
  match v with VArray l => l | _ => [] end.

(** ** Sequences of property writes

    Each of the three loops of a row construction performs a sequence of
    assignments [mergedRow[k] = v]; a lookup in the final object is decided
    by the last write of the name looked up. *)

Definition assign (ws : list (string * value)) (acc : gmap string value)
  : gmap string value :=
  foldl (λ acc w, setProperty acc w.1 w.2) acc ws.

(** Both row constructions run the same three loops and differ only in the
    values they store: [v1] under the unmapped columns of file1, [vm] under
    the merged names, [v2] under the unmapped columns of file2. *)
Definition rowWrites (file1 file2 : ParsedFile.t) (mappings : list ColumnMapping.t)
    (v1 : string → value) (vm : ColumnMapping.t → value) (v2 : string → value)
  : list (string * value) :=
  ((λ h, (h, v1 h)) <$>
     filter (λ h, h ∉ usedColumns1_of mappings) (ParsedFile.headers file1))
  ++ ((λ m, (mergedName m, vm m)) <$> mappings)
  ++ ((λ h, (h, v2 h)) <$>
     filter (λ h, h ∉ dom (mappingMap_of mappings)) (ParsedFile.headers file2)).

(** ** Inputs used below *)

(** The scenario of section 8 of the specification. *)
Definition scenarioA : ParsedFile.t :=
  ParsedFile.mk "a.csv" ["email"; "name"]
    [ {[ "email" := VString "a@x.com"; "name" := VString "Ann" ]} ] 1.

Definition scenarioB : ParsedFile.t :=
  ParsedFile.mk "b.csv" ["e-mail"; "age"]
    [ {[ "e-mail" := VString "b@x.com"; "age" := VNumber 30 ]} ] 1.

Definition scenarioMapping : ColumnMapping.t :=
  ColumnMapping.mk "email" "e-mail" (9 # 10) "synonym" "email".

Definition scenarioMappings : list ColumnMapping.t := [scenarioMapping].

(** The request of the scenario of the specification. *)
Definition scenarioRequest : value :=
  VObject
    [ ("file1", VObject
        [ ("name", VString "a.csv");
          ("headers", VArray [VString "email"; VString "name"]);
          ("data", VArray
             [ VObject [ ("email", VString "a@x.com"); ("name", VString "Ann") ] ]);
          ("rowCount", VNumber 1) ]);
      ("file2", VObject
        [ ("name", VString "b.csv");
          ("headers", VArray [VString "e-mail"; VString "age"]);
          ("data", VArray
             [ VObject [ ("e-mail", VString "b@x.com"); ("age", VNumber 30) ] ]);
          ("rowCount", VNumber 1) ]);
      ("mappings", VArray
        [ VObject
            [ ("column1", VString "email");
              ("column2", VString "e-mail");
              ("confidence", VNumber (9 # 10));
              ("reason", VString "synonym");
              ("mergedName", VString "email") ] ]) ].

(** A correspondence whose merged name is also an unmapped column of file2:
    all invariants of the data model hold, yet the third loop of each row
    construction writes that name again. *)
Definition collideA : ParsedFile.t :=
  ParsedFile.mk "a.csv" ["email"] [ {[ "email" := VString "a@x.com" ]} ] 1.

Definition collideB : ParsedFile.t :=
  ParsedFile.mk "b.csv" ["e-mail"; "age"]
    [ {[ "e-mail" := VString "b@x.com"; "age" := VNumber 30 ]} ] 1.

Definition collideMappings : list ColumnMapping.t :=
  [ ColumnMapping.mk "email" "e-mail" (9 # 10) "synonym" "age" ].

(** Two files that both have an unmapped column ["id"]. *)
Definition sharedA : ParsedFile.t :=
  ParsedFile.mk "a.csv" ["id"] [ {[ "id" := VNumber 1 ]} ] 1.

Definition sharedB : ParsedFile.t :=
  ParsedFile.mk "b.csv" ["id"] [ {[ "id" := VNumber 2 ]} ] 1.

(** A file whose only row lacks the column its header list names. *)
Definition sparseA : ParsedFile.t :=
  ParsedFile.mk "a.csv" ["a"] [ ∅ ] 1.

Definition emptyB : ParsedFile.t :=
  ParsedFile.mk "b.csv" [] [] 0.


(** Two correspondences with the same merged name. *)
Definition twinA : ParsedFile.t :=
  ParsedFile.mk "a.csv" ["a"; "b"]
    [ {[ "a" := VString "a1"; "b" := VString "b1" ]} ] 1.

Definition twinB : ParsedFile.t :=
  ParsedFile.mk "b.csv" ["c"; "d"]
    [ {[ "c" := VString "c1"; "d" := VString "d1" ]} ] 1.

Definition twinMappings : list ColumnMapping.t :=
  [ ColumnMapping.mk "a" "c" 1 "first" "x";
    ColumnMapping.mk "b" "d" 1 "second" "x" ].

(** * The rest of the program

    The other functions of [file-processor.ts], the column analysis route
    and the state updates of the [FileMerger] component.  What a third-party
    library computes ([Papa.parse], [XLSX], [FileReader], the language
    model) is an input of the function that calls it. *)

(** ** getSampleData *)

(** A JavaScript [number].  The finite ones are rationals. *)
Inductive number : Type :=
  | Finite (q : Q)
  | NaN
  | PosInfinity
  | NegInfinity.

Inductive integerOrInfinity : Type :=
  | Integer (z : Z)
  | PlusInfinity
  | MinusInfinity.

(** [Math.min(x, n)] for an array length [n]. *)
Definition Math_min (x : number) (n : nat) : number :=
  match x with
  | NaN => NaN
  | NegInfinity => NegInfinity
  | PosInfinity => Finite (inject_Z (Z.of_nat n))
  | Finite q =>
      if Qle_bool q (inject_Z (Z.of_nat n)) then Finite q
      else Finite (inject_Z (Z.of_nat n))
  end.

(** The conversion [Array.prototype.slice] applies to its arguments: [NaN]
    becomes 0, a finite number loses its fractional part. *)
Definition ToIntegerOrInfinity (x : number) : integerOrInfinity :=
  match x with
  | NaN => Integer 0
  | PosInfinity => PlusInfinity
  | NegInfinity => MinusInfinity
  | Finite q => Integer (Z.quot (Qnum q) (Z.pos (Qden q)))
  end.

(** [arr.slice(0, end)]: a negative [end] counts from the end of the
    array. *)
Definition slice0 {A : Type} (arr : list A) (end_ : number) : list A :=
  let len := Z.of_nat (length arr) in
  let final :=
    match ToIntegerOrInfinity end_ with
    | MinusInfinity => 0%Z
    | Integer relativeEnd =>
        if (relativeEnd <? 0)%Z then Z.max (len + relativeEnd) 0
        else Z.min relativeEnd len
    | PlusInfinity => len
    end in
  take (Z.to_nat final) arr.

(** Lines 82-84.  [sampleSize] is [None] when the argument is omitted. *)
Definition getSampleData (data : list (gmap string value))
    (sampleSize : option number) : list (gmap string value) :=
  let sampleSize := default (Finite (inject_Z 5)) sampleSize in
  slice0 data (Math_min sampleSize (length data)).

(** ** parseFile *)

(** An object as the parsers build it: its own enumerable properties, each
    name once, in enumeration order, which is the order of [Object.keys]. *)
Abbreviation jsobject := (list (string * value)).

Definition Object_keys (o : jsobject) : list string := o.*1.

(** The object as a row of a [ParsedFile]. *)
Definition rowOf (o : jsobject) : gmap string value := list_to_map o.

(** [s.toLowerCase()], exact on ASCII text: the letters A to Z are lowered,
    every other character is kept.  On other scripts [toLowerCase] follows
    Unicode and the text it returns is not the one computed here; it never
    yields one of the letters of [csv], [xlsx], [xls] from a non-ASCII
    character, so the choice of the parser is the same.  The properties
    that quote the lowered text are stated for ASCII text. *)
Definition lowerAscii (c : Ascii.ascii) : Ascii.ascii :=
  let n := Ascii.nat_of_ascii c in
  if (65 <=? n)%nat && (n <=? 90)%nat then Ascii.ascii_of_nat (n + 32) else c.

Fixpoint toLowerCase (s : string) : string :=
  match s with
  | EmptyString => EmptyString
  | String c rest => String (lowerAscii c) (toLowerCase rest)
  end.

(** [s.split(sep)] for a one-character separator: never empty. *)
Fixpoint split (sep : Ascii.ascii) (s : string) : list string :=
  match s with
  | EmptyString => [EmptyString]
  | String c rest =>
      if decide (c = sep) then EmptyString :: split sep rest
      else match split sep rest with
           | [] => [String c EmptyString]
           | piece :: pieces => String c piece :: pieces
           end
  end.

(** [name.split(".").pop()?.toLowerCase()]; [None] stands for
    [undefined]. *)
Definition extensionOf (name : string) : option string :=
  toLowerCase <$> last (split "."%char name).

(** What a promise settles to. *)
Inductive rejection : Type :=
  | NewError (message : string)
  | Forwarded (error : string).

Inductive promise (A : Type) : Type :=
  | Resolved (a : A)
  | Rejected (reason : rejection).
Arguments Resolved {A} a.
Arguments Rejected {A} reason.

(** What [Papa.parse] reports for the content of a file: the [complete]
    callback with the messages of [results.errors] and [results.data], or
    the [error] callback. *)
Inductive papaOutcome : Type :=
  | PapaComplete (errors : list string) (data : list jsobject)
  | PapaError (error : string).

(** What reading the file as a workbook gives: [reader.onerror], an
    exception inside [reader.onload], or the rows of the first sheet. *)
Inductive workbookOutcome : Type :=
  | ReaderFailed
  | WorkbookThrows (error : string)
  | SheetRows (jsonData : list jsobject).

(** A [File]: its name, and what the two parsers make of its content. *)
Module File.
Record t : Type := mk {
  name : string;
  asCsv : papaOutcome;
  asWorkbook : workbookOutcome
}.
End File.

(** [data[0] || {}] *)
Definition firstOrEmpty (data : list jsobject) : jsobject :=
  match data with
  | first :: _ => first
  | [] => []
  end.

(** Lines 27-80. *)
Definition parseFile (file : File.t) : promise ParsedFile.t :=
  let extension := extensionOf (File.name file) in
  if decide (extension = Some "csv") then
    match File.asCsv file with
    | PapaComplete errors results_data =>
        match errors with
        | first :: _ => Rejected (NewError ("CSV parsing error: " +:+ first))
        | [] =>
            let data := results_data in
            let headers := Object_keys (firstOrEmpty data) in
            Resolved (ParsedFile.mk (File.name file) headers (rowOf <$> data)
                        (inject_Z (Z.of_nat (length data))))
        end
    | PapaError error => Rejected (Forwarded error)
    end
  else if decide (extension = Some "xlsx" ∨ extension = Some "xls") then
    match File.asWorkbook file with
    | ReaderFailed => Rejected (NewError "File reading failed")
    | WorkbookThrows error => Rejected (Forwarded error)
    | SheetRows jsonData =>
        let headers := Object_keys (firstOrEmpty jsonData) in
        Resolved (ParsedFile.mk (File.name file) headers (rowOf <$> jsonData)
                    (inject_Z (Z.of_nat (length jsonData))))
    end
  else
    Rejected (NewError ("Unsupported file type: "
                        +:+ default "undefined" extension)).

(** ** The column analysis route

    [POST] of [analyze-columns/route.ts].  The prompt is a text built from
    six pieces of the request; the model's answer is a function of that
    text, hence of the six pieces, which is what [generateObject] takes
    here. *)

Module PromptInput.
Record t : Type := mk {
  name1 : value;
  headers1 : list value;
  sampleData1 : value;
  name2 : value;
  headers2 : list value;
  sampleData2 : value
}.
End PromptInput.

(** Whether the conversion of [v] to a string returns.  A primitive always
    converts.  An object is converted by its [toString] method: the one it
    inherits from [Object.prototype], unless it owns a [toString] key; a
    value parsed from JSON is no function, so with such a key the
    conversion finds nothing to call ([valueOf] returns the object itself)
    and throws a [TypeError].  An array is converted by joining its
    elements, each converted in turn. *)
Fixpoint toStringReturns (v : value) : bool :=
  match v with
  | VObject fields => negb (bool_decide ("toString" ∈ fields.*1))
  | VArray items => forallb toStringReturns items
  | _ => true
  end.

(** [`${v}`]: the value converted to a string, or the exception of the
    conversion.  The text is a function of [v], which stands for it. *)
Definition ToString (v : value) : completion value :=
  if toStringReturns v then Return v else Throw.

(** [v.join(", ")] as far as the control flow goes: only an array has a
    [join] method, on every other value the call throws; each element is
    converted to a string, which may throw.  The elements are what the
    joined text is made of. *)
Definition join (v : value) : completion (list value) :=
  match v with
  | VArray items => if forallb toStringReturns items then Return items else Throw
  | _ => Throw
  end.

(** The [try] block, lines 24-68.  [sampleData], like the other property
    names read here, is an own property or nothing; [JSON.stringify] of a
    value parsed from JSON returns. *)
Definition POST_analyze_try {Out : Type}
    (generateObject : PromptInput.t → completion Out)
    (request_json : completion value) : completion (response Out) :=
  body ← request_json;
  file1 ← getProperty body "file1";
  file2 ← getProperty body "file2";
  if negb (truthy file1) || negb (truthy file2) then
    Return (mkResponse (ErrorBody "Both files are required") 400)
  else
    name1 ← getProperty file1 "name" ≫= ToString;
    headers1 ← getProperty file1 "headers";
    joined1 ← join headers1;
    sampleData1 ← getProperty file1 "sampleData";
    name2 ← getProperty file2 "name" ≫= ToString;
    headers2 ← getProperty file2 "headers";
    joined2 ← join headers2;
    sampleData2 ← getProperty file2 "sampleData";
    object ← generateObject
               (PromptInput.mk name1 joined1 sampleData1 name2 joined2 sampleData2);
    Return (mkResponse (ResultBody object) 200).

Definition POST_analyze {Out : Type}
    (generateObject : PromptInput.t → completion Out)
    (request_json : completion value) : response Out :=
  match POST_analyze_try generateObject request_json with
  | Return r => r
  | Throw => mkResponse (ErrorBody "Failed to analyze columns") 500
  end.

(** The text of the prompt can be built from this file of the request: its
    name converts to a string, its headers are an array, and every header
    converts to a string. *)
Definition promptBuilds (file : value) : bool :=
  toStringReturns (payloadField file "name")
  && isArray (payloadField file "headers")
  && forallb toStringReturns (items (payloadField file "headers")).

(** What the model is asked about, for a payload whose files have array
    headers. *)
Definition promptInput (payload : value) : PromptInput.t :=
  let file1 := payloadField payload "file1" in
  let file2 := payloadField payload "file2" in
  PromptInput.mk (payloadField file1 "name") (items (payloadField file1 "headers"))
                 (payloadField file1 "sampleData")
                 (payloadField file2 "name") (items (payloadField file2 "headers"))
                 (payloadField file2 "sampleData").

(** ** The state of the FileMerger component *)

Module FileWithPreview.
Record t : Type := mk {
  parsed : ParsedFile.t;
  file : File.t
}.
End FileWithPreview.

(** The notifications: [toast.error] with a fixed text, [toast.error] for a
    file that failed to parse (its name and the reason), [toast.success]
    with the number of files parsed. *)
Inductive toast : Type :=
  | ToastError (message : string)
  | ToastParseError (name : string) (reason : rejection)
  | ToastParsed (count : nat).

Module FileMerger.
Record state : Type := mk {
  files : list FileWithPreview.t;
  isProcessing : bool;
  mappings : list ColumnMapping.t;
  mergeResult : option MergeResult.t;
  showPreview : bool
}.
End FileMerger.

(** [arr.filter((x, i) => keep x i)], the index counted from [i]. *)
Fixpoint filterFrom {A : Type} (i : nat) (keep : A → nat → bool) (arr : list A)
  : list A :=
  match arr with
  | [] => []
  | x :: rest =>
      if keep x i then x :: filterFrom (S i) keep rest
      else filterFrom (S i) keep rest
  end.

(** Lines 77-81. *)
Definition removeFile (index : nat) (st : FileMerger.state) : FileMerger.state :=
  FileMerger.mk
    (filterFrom 0 (λ _ i, negb (i =? index)%nat) (FileMerger.files st))
    (FileMerger.isProcessing st)
    []
    None
    (FileMerger.showPreview st).

(** The predicate of the filter of lines 26-29. *)
Definition isCsvOrExcel (file : File.t) : Prop :=
  let ext := extensionOf (File.name file) in
  ext = Some "csv" ∨ ext = Some "xlsx" ∨ ext = Some "xls".

#[global] Instance isCsvOrExcel_dec file : Decision (isCsvOrExcel file).
Proof. unfold isCsvOrExcel. apply _. Defined.

(** The loop of lines 46-53: the files that parse are collected, each
    failure is notified. *)
Definition parseEach (csvXlsxFiles : list File.t)
  : list FileWithPreview.t * list toast :=
  forEach csvXlsxFiles (λ acc file,
    match parseFile file with
    | Resolved parsed => (push acc.1 (FileWithPreview.mk parsed file), acc.2)
    | Rejected reason => (acc.1, push acc.2 (ToastParseError (File.name file) reason))
    end) ([], []).

(** [onDrop], lines 25-65.  [filesLength] is the [files.length] the callback
    was created with; the update of [files] applies to the state at hand. *)
Definition onDrop (filesLength : nat) (acceptedFiles : list File.t)
    (st : FileMerger.state) : FileMerger.state * list toast :=
  let csvXlsxFiles := filter isCsvOrExcel acceptedFiles in
  if decide (length csvXlsxFiles = 0%nat) then
    (st, [ToastError "Please upload only CSV or Excel files"])
  else if decide (2 < filesLength + length csvXlsxFiles)%nat then
    (st, [ToastError "You can upload maximum 2 files"])
  else
    let '(parsedFiles, toasts) := parseEach csvXlsxFiles in
    let toasts :=
      if decide (0 < length parsedFiles)%nat
      then push toasts (ToastParsed (length parsedFiles))
      else toasts in
    (FileMerger.mk (FileMerger.files st ++ parsedFiles) false
       (FileMerger.mappings st) (FileMerger.mergeResult st)
       (FileMerger.showPreview st),
     toasts).

(** What an accepted file contributes to the list of files. *)
Definition parsedOrSkipped (file : File.t) : option FileWithPreview.t :=
  match parseFile file with
  | Resolved parsed => Some (FileWithPreview.mk parsed file)
  | Rejected _ => None
  end.

(** A file without extension, next to the two uploads above. *)
Definition readmeFile : File.t :=
  File.mk "README" (PapaError "not a CSV file") ReaderFailed.

Definition emptyState : FileMerger.state := FileMerger.mk [] false [] None false.

(** Requests to the analysis route: a well-formed one, and one whose first
    file is [true]. *)
Definition analyzeRequest : value :=
  VObject
    [ ("file1", VObject
        [ ("name", VString "a.csv");
          ("headers", VArray [VString "email"; VString "name"]);
          ("sampleData", VArray []) ]);
      ("file2", VObject
        [ ("name", VString "b.csv");
          ("headers", VArray [VString "e-mail"; VString "age"]);
          ("sampleData", VArray []) ]) ].

Definition shapelessRequest : value :=
  VObject [ ("file1", VBool true); ("file2", VBool true) ].

(** The request of [analyzeRequest] with a first file whose name is an
    object with a [toString] key. *)
Definition unprintableRequest : value :=
  VObject
    [ ("file1", VObject
        [ ("name", VObject [ ("toString", VNumber 1) ]);
          ("headers", VArray [VString "email"; VString "name"]);
          ("sampleData", VArray []) ]);
      ("file2", VObject
        [ ("name", VString "b.csv");
          ("headers", VArray [VString "e-mail"; VString "age"]);
          ("sampleData", VArray []) ]) ].

(** A request to the merge route with no files and mappings that are no
    array. *)
Definition doublyInvalidRequest : value :=
  VObject [ ("mappings", VString "none") ].

(** ** Vocabulary for the properties of parseFile *)

(** A text without a dot. *)
Definition dotFree (s : string) : Prop :=
  "."%char ∉ String.list_ascii_of_string s.

#[global] Instance dotFree_dec s : Decision (dotFree s).
Proof. unfold dotFree. apply _. Defined.

(** A text of ASCII characters only. *)
Definition asciiText (s : string) : Prop :=
  Forall (λ c, (Ascii.nat_of_ascii c < 128)%nat) (String.list_ascii_of_string s).

#[global] Instance asciiText_dec s : Decision (asciiText s).
Proof. unfold asciiText. apply _. Defined.

(** The three extensions [parseFile] accepts. *)
Definition supportedExtension (e : string) : Prop :=
  e = "csv" ∨ e = "xlsx" ∨ e = "xls".

#[global] Instance supportedExtension_dec e : Decision (supportedExtension e).
Proof. unfold supportedExtension. apply _. Defined.

(** A workbook whose second row has a cell in a column that is empty in the
    first row, and a CSV file with an upper-case extension. *)
Definition sheetFile : File.t :=
  File.mk "people.xlsx" (PapaError "not a CSV file")
    (SheetRows [ [ ("id", VNumber 1) ];
                 [ ("id", VNumber 2); ("phone", VString "555") ] ]).

Definition csvFile : File.t :=
  File.mk "ages.CSV"
    (PapaComplete [] [ [ ("age", VNumber 30) ] ])
    ReaderFailed.

Definition sheetParsed : ParsedFile.t :=
  ParsedFile.mk "people.xlsx" ["id"]
    [ {[ "id" := VNumber 1 ]};
      {[ "id" := VNumber 2; "phone" := VString "555" ]} ] 2.

Definition csvParsed : ParsedFile.t :=
  ParsedFile.mk "ages.CSV" ["age"] [ {[ "age" := VNumber 30 ]} ] 1.

(** The part of a correspondence that [mergeFiles] reads. *)
Definition columnsOf (m : ColumnMapping.t) : string * string * string :=
  (column1 m, column2 m, mergedName m).

(** The scenario's correspondence with no confidence at all. *)
Definition doubtfulMappings : list ColumnMapping.t :=
  [ ColumnMapping.mk "email" "e-mail" 0 "a guess" "email" ].

(** * Part III: lemmas *)

(** ** The scenario of the specification, evaluated *)

Example scenario_headers :
  MergeResult.headers (mergeFiles scenarioA scenarioB scenarioMappings)
  = ["name"; "email"; "age"].
Proof. vm_compute. reflexivity. Qed.

Example scenario_data :
  MergeResult.data (mergeFiles scenarioA scenarioB scenarioMappings)
  = [ {[ "name" := VString "Ann"; "email" := VString "a@x.com"; "age" := VNull ]};
      {[ "name" := VNull; "email" := VString "b@x.com"; "age" := VNumber 30 ]} ].
Proof. vm_compute. reflexivity. Qed.

Example scenario_POST :
  POST mergeFiles_on_payload (Return scenarioRequest)
  = mkResponse (ResultBody (mergeFiles scenarioA scenarioB scenarioMappings)) 200.
Proof. vm_compute. reflexivity. Qed.

(** ** Loops as sequences of writes *)

Section writes.
Implicit Types (ws : list (string * value)) (acc : gmap string value).
Implicit Types (k : string) (v : value).

Lemma assign_app ws1 ws2 acc :
  assign (ws1 ++ ws2) acc = assign ws2 (assign ws1 acc).
Proof. apply foldl_app. Qed.

Lemma assign_cons k v ws acc :
  assign ((k, v) :: ws) acc = assign ws (setProperty acc k v).
Proof. reflexivity. Qed.

Lemma lookup_setProperty_ne acc k k' v :
  k' ≠ k → setProperty acc k' v !! k = acc !! k.
Proof.
  intros Hne. unfold setProperty. destruct (decide (k' = "__proto__")); [done|].
  by rewrite lookup_insert_ne.
Qed.

Lemma lookup_setProperty_eq acc k v :
  k ≠ "__proto__" → setProperty acc k v !! k = Some v.
Proof.
  intros Hk. unfold setProperty. rewrite decide_False by done.
  apply lookup_insert_eq.
Qed.

Lemma assign_untouched ws acc k :
  k ∉ ws.*1 → assign ws acc !! k = acc !! k.
Proof.
  revert acc. induction ws as [|[k' v'] ws IH]; intros acc Hk; [done|].
  rewrite fmap_cons in Hk. apply not_elem_of_cons in Hk as [Hne Hk].
  rewrite assign_cons, IH by done. by rewrite lookup_setProperty_ne.
Qed.

Lemma assign_agree ws acc k v :
  k ≠ "__proto__" →
  k ∈ ws.*1 → (∀ v', (k, v') ∈ ws → v' = v) →
  assign ws acc !! k = Some v.
Proof.
  intros Hplain.
  revert acc. induction ws as [|[k' v'] ws IH]; intros acc Hk Hv.
  { by apply elem_of_nil in Hk. }
  rewrite assign_cons. destruct (decide (k ∈ ws.*1)) as [Hin|Hout].
  - apply IH; [done|]. intros v'' ?. apply Hv. by right.
  - rewrite assign_untouched by done.
    rewrite fmap_cons in Hk. apply elem_of_cons in Hk as [Heq|?]; [|done].
    cbn in Heq. subst k'.
    rewrite lookup_setProperty_eq by done. f_equal. apply Hv. by left.
Qed.

End writes.

(** A loop that writes [f x] under the name [key x] for the elements
    selected by [P] performs the writes of the selected elements in order. *)
Lemma forEach_guarded_assign {A} (P : A → Prop) `{!∀ x, Decision (P x)}
    (key : A → string) (f : A → value) (xs : list A) (acc : gmap string value) :
  forEach xs (λ acc x,
    if decide (P x) then setProperty acc (key x) (f x) else acc) acc
  = assign ((λ x, (key x, f x)) <$> filter P xs) acc.
Proof.
  unfold forEach, assign. revert acc.
  induction xs as [|x xs IH]; intros acc; [done|].
  rewrite filter_cons. cbn [foldl].
  destruct (decide (P x)); [rewrite fmap_cons; cbn [foldl]|]; apply IH.
Qed.

Lemma forEach_assign {A} (key : A → string) (f : A → value)
    (xs : list A) (acc : gmap string value) :
  forEach xs (λ acc x, setProperty acc (key x) (f x)) acc
  = assign ((λ x, (key x, f x)) <$> xs) acc.
Proof.
  unfold forEach, assign. revert acc.
  induction xs as [|x xs IH]; intros acc; [done|]. cbn. apply IH.
Qed.

Lemma forEach_push {A B} (f : A → B) (xs : list A) (acc : list B) :
  forEach xs (λ acc x, push acc (f x)) acc = acc ++ (f <$> xs).
Proof.
  unfold forEach, push. revert acc.
  induction xs as [|x xs IH]; intros acc; cbn.
  - by rewrite app_nil_r.
  - rewrite IH. by rewrite <- app_assoc.
Qed.

(** ** What the Set and the Map of mergeFiles decide *)

Lemma usedColumns1_has (mappings : list ColumnMapping.t) (h : string) :
  h ∈ usedColumns1_of mappings ↔ h ∈ column1 <$> mappings.
Proof. unfold usedColumns1_of. apply elem_of_list_to_set. Qed.

Lemma mappingMap_dom_from (mappings : list ColumnMapping.t)
    (acc : gmap string (string * string)) :
  dom (foldl (λ acc m, <[column2 m := (column1 m, mergedName m)]> acc) acc mappings)
  = list_to_set (column2 <$> mappings) ∪ dom acc.
Proof.
  revert acc. induction mappings as [|m ms IH]; intros acc; cbn.
  - set_solver.
  - rewrite IH, dom_insert_L. set_solver.
Qed.

Lemma mappingMap_has (mappings : list ColumnMapping.t) (h : string) :
  h ∈ dom (mappingMap_of mappings) ↔ h ∈ column2 <$> mappings.
Proof.
  unfold mappingMap_of. rewrite mappingMap_dom_from. set_solver.
Qed.

(** ** The writes of one row construction *)

Lemma mergedRow1_writes file1 file2 mappings row :
  mergedRow1 file1 file2 mappings row
  = assign (rowWrites file1 file2 mappings
              (get row) (λ m, get row (column1 m)) (λ _, VNull)) ∅.
Proof.
  unfold mergedRow1, rowWrites. cbv zeta.
  rewrite !assign_app.
  rewrite (forEach_guarded_assign _ id (get row)).
  rewrite (forEach_assign mergedName (λ m, get row (column1 m))).
  by rewrite (forEach_guarded_assign _ id (λ _, VNull)).
Qed.

Lemma mergedRow2_writes file1 file2 mappings row :
  mergedRow2 file1 file2 mappings row
  = assign (rowWrites file1 file2 mappings
              (λ _, VNull) (λ m, get row (column2 m)) (get row)) ∅.
Proof.
  unfold mergedRow2, rowWrites. cbv zeta.
  rewrite !assign_app.
  rewrite (forEach_guarded_assign _ id (λ _, VNull)).
  rewrite (forEach_assign mergedName (λ m, get row (column2 m))).
  by rewrite (forEach_guarded_assign _ id (get row)).
Qed.

Section row_writes.
Context (file1 file2 : ParsedFile.t) (mappings : list ColumnMapping.t).
Context (v1 : string → value) (vm : ColumnMapping.t → value) (v2 : string → value).

Let out : gmap string value :=
  assign (rowWrites file1 file2 mappings v1 vm v2) ∅.

Lemma elem_of_guarded_keys {P : string → Prop} `{!∀ x, Decision (P x)}
    (f : string → value) (hs : list string) (k : string) :
  k ∈ ((λ h, (h, f h)) <$> filter P hs).*1 ↔ k ∈ hs ∧ P k.
Proof.
  split.
  - intros ([k' v] & -> & (h & [= -> ->] & Hh)%list_elem_of_fmap)%list_elem_of_fmap.
    apply list_elem_of_filter in Hh. tauto.
  - intros [Hk HP]. apply list_elem_of_fmap. exists (k, f k). split; [done|].
    apply list_elem_of_fmap. exists k. split; [done|].
    by apply list_elem_of_filter.
Qed.

Lemma elem_of_guarded_writes {P : string → Prop} `{!∀ x, Decision (P x)}
    (f : string → value) (hs : list string) (k : string) (v : value) :
  (k, v) ∈ (λ h, (h, f h)) <$> filter P hs → v = f k.
Proof.
  intros (h & [= -> ->] & _)%list_elem_of_fmap. done.
Qed.

Lemma third_loop_keys (k : string) :
  k ∈ ((λ h, (h, v2 h)) <$>
        filter (λ h, h ∉ dom (mappingMap_of mappings))
               (ParsedFile.headers file2)).*1
  ↔ unmapped2 file2 mappings k.
Proof.
  rewrite elem_of_guarded_keys. unfold unmapped2.
  by rewrite mappingMap_has.
Qed.

Lemma first_loop_keys (k : string) :
  k ∈ ((λ h, (h, v1 h)) <$>
        filter (λ h, h ∉ usedColumns1_of mappings)
               (ParsedFile.headers file1)).*1
  ↔ unmapped1 file1 mappings k.
Proof.
  rewrite elem_of_guarded_keys. unfold unmapped1.
  by rewrite usedColumns1_has.
Qed.

Lemma second_loop_keys (k : string) :
  k ∈ ((λ m, (mergedName m, vm m)) <$> mappings).*1
  ↔ k ∈ mergedName <$> mappings.
Proof. by rewrite <- list_fmap_compose. Qed.

(** The third loop runs last: what it writes stays. *)
Lemma row_unmapped2 (h : string) :
  h ≠ "__proto__" →
  unmapped2 file2 mappings h → out !! h = Some (v2 h).
Proof.
  intros Hplain Hh. unfold out, rowWrites. rewrite !assign_app.
  apply assign_agree; [done| |].
  - by apply third_loop_keys.
  - intros v'. apply elem_of_guarded_writes.
Qed.

(** A merged name keeps the value of its correspondence when the third
    loop does not write the name and all correspondences with that merged
    name store the same value. *)
Lemma row_mapped (m : ColumnMapping.t) :
  mergedName m ≠ "__proto__" →
  m ∈ mappings →
  ¬ unmapped2 file2 mappings (mergedName m) →
  (∀ m', m' ∈ mappings → mergedName m' = mergedName m → vm m' = vm m) →
  out !! mergedName m = Some (vm m).
Proof.
  intros Hplain Hm H2 Hagree. unfold out, rowWrites. rewrite !assign_app.
  rewrite assign_untouched by (by rewrite third_loop_keys).
  apply assign_agree; [done| |].
  - apply second_loop_keys. by apply list_elem_of_fmap_2.
  - intros v' (m' & [= Hk ->] & Hm')%list_elem_of_fmap. by apply Hagree.
Qed.

(** An unmapped column of file1 keeps what the first loop stored when
    neither later loop writes the name. *)
Lemma row_unmapped1 (h : string) :
  h ≠ "__proto__" →
  unmapped1 file1 mappings h →
  h ∉ mergedName <$> mappings →
  ¬ unmapped2 file2 mappings h →
  out !! h = Some (v1 h).
Proof.
  intros Hplain H1 Hm H2. unfold out, rowWrites. rewrite !assign_app.
  rewrite assign_untouched by (by rewrite third_loop_keys).
  rewrite assign_untouched by (by rewrite second_loop_keys).
  apply assign_agree; [done| |].
  - by apply first_loop_keys.
  - intros v'. apply elem_of_guarded_writes.
Qed.


End row_writes.

(** The rows of the result: the rows built from file1, then those built from
    file2, in the order of the inputs. *)
Lemma mergeFiles_data file1 file2 mappings :
  MergeResult.data (mergeFiles file1 file2 mappings)
  = (mergedRow1 file1 file2 mappings <$> ParsedFile.data file1)
    ++ (mergedRow2 file1 file2 mappings <$> ParsedFile.data file2).
Proof.
  unfold mergeFiles. cbn [MergeResult.data].
  by rewrite !forEach_push.
Qed.

(** The row built for the [i]-th row of file1 sits at index [i] of the
    result, the one built for the [i]-th row of file2 at index
    [length file1.data + i]. *)
Lemma mergeFiles_row1 file1 file2 mappings (i : nat) (row : gmap string value) :
  ParsedFile.data file1 !! i = Some row →
  MergeResult.data (mergeFiles file1 file2 mappings) !! i
  = Some (mergedRow1 file1 file2 mappings row).
Proof.
  intros Hrow. rewrite mergeFiles_data.
  rewrite lookup_app_l by (rewrite length_fmap; by eapply lookup_lt_Some).
  by rewrite list_lookup_fmap, Hrow.
Qed.

Lemma mergeFiles_row2 file1 file2 mappings (i : nat) (row : gmap string value) :
  ParsedFile.data file2 !! i = Some row →
  MergeResult.data (mergeFiles file1 file2 mappings)
    !! (length (ParsedFile.data file1) + i)
  = Some (mergedRow2 file1 file2 mappings row).
Proof.
  intros Hrow. rewrite mergeFiles_data.
  rewrite lookup_app_r by (rewrite length_fmap; lia).
  rewrite length_fmap.
  replace (length (ParsedFile.data file1) + i - length (ParsedFile.data file1))
    with i by lia.
  by rewrite list_lookup_fmap, Hrow.
Qed.

(** ** Lists *)

Lemma filter_all {A} (P : A → Prop) `{!∀ x, Decision (P x)} (l : list A) :
  (∀ x, x ∈ l → P x) → filter P l = l.
Proof.
  induction l as [|x l IH]; intros HP; [done|].
  rewrite filter_cons_True by (apply HP; by left).
  f_equal. apply IH. intros y ?. apply HP. by right.
Qed.


Lemma NoDup_fmap_eq {A B} (f : A → B) (l : list A) (x y : A) :
  NoDup (f <$> l) → x ∈ l → y ∈ l → f x = f y → x = y.
Proof.
  induction l as [|a l IH]; intros Hnd Hx Hy Hf.
  { by apply elem_of_nil in Hx. }
  rewrite fmap_cons in Hnd. apply NoDup_cons in Hnd as [Ha Hnd].
  apply elem_of_cons in Hx as [->|Hx]; apply elem_of_cons in Hy as [->|Hy].
  - done.
  - exfalso. apply Ha. rewrite Hf. by apply list_elem_of_fmap_2.
  - exfalso. apply Ha. rewrite <- Hf. by apply list_elem_of_fmap_2.
  - by apply IH.
Qed.

(** ** The header list *)


(** The three parts of the header list. *)
Lemma elem_of_mergedHeaders file1 file2 mappings (h : string) :
  h ∈ mergedHeaders file1 file2 mappings
  ↔ unmapped1 file1 mappings h
    ∨ h ∈ mergedName <$> mappings
    ∨ unmapped2 file2 mappings h.
Proof.
  unfold mergedHeaders, unmapped1, unmapped2. cbv zeta.
  rewrite !elem_of_app, !list_elem_of_filter, usedColumns1_has, mappingMap_has.
  tauto.
Qed.

(** When no output column is named [__proto__], every write stores its
    field. *)
Lemma plain_names file1 file2 mappings :
  plainOutputNames file1 file2 mappings →
  (∀ h, unmapped1 file1 mappings h → h ≠ "__proto__")
  ∧ (∀ m, m ∈ mappings → mergedName m ≠ "__proto__")
  ∧ (∀ h, unmapped2 file2 mappings h → h ≠ "__proto__")
  ∧ filter (λ k, k ≠ "__proto__") (mergedHeaders file1 file2 mappings)
    = mergedHeaders file1 file2 mappings.
Proof.
  unfold plainOutputNames. intros Hplain.
  assert (Hin : ∀ h, h ∈ mergedHeaders file1 file2 mappings → h ≠ "__proto__").
  { intros h Hh ->. by apply Hplain. }
  repeat split.
  - intros h Hh. apply Hin, elem_of_mergedHeaders. by left.
  - intros m Hm. apply Hin, elem_of_mergedHeaders. right; left.
    by apply list_elem_of_fmap_2.
  - intros h Hh. apply Hin, elem_of_mergedHeaders. by right; right.
  - by apply filter_all.
Qed.

(** A name that is neither owned nor inherited reads as [undefined]. *)
Lemma get_absent (row : gmap string value) (k : string) :
  row !! k = None → ¬ inheritedName k → get row k = VUndefined.
Proof.
  intros Hrow Hk. unfold get, inherited, inheritedName in *. rewrite Hrow. cbn.
  destruct (decide (k = "__proto__")); [tauto|].
  destruct (decide (k ∈ objectPrototypeMethods)); [tauto|done].
Qed.

(** X13: mergeFiles, distinct headers.  The header list has no repeated
    name when each file's headers are distinct, the merged names are
    distinct, and the three parts of the list share no name. *)
Lemma mergedHeaders_NoDup file1 file2 mappings :
  NoDup (ParsedFile.headers file1) →
  NoDup (ParsedFile.headers file2) →
  NoDup (mergedName <$> mappings) →
  (∀ h, unmapped1 file1 mappings h → h ∉ mergedName <$> mappings) →
  (∀ h, unmapped2 file2 mappings h → h ∉ mergedName <$> mappings) →
  (∀ h, unmapped1 file1 mappings h → ¬ unmapped2 file2 mappings h) →
  NoDup (mergedHeaders file1 file2 mappings).
Proof.
  intros Hnd1 Hnd2 Hndm H1m H2m H12. unfold mergedHeaders. cbv zeta.
  assert (Hin1 : ∀ h, h ∈ filter (λ h, h ∉ usedColumns1_of mappings)
                             (ParsedFile.headers file1)
                      → unmapped1 file1 mappings h).
  { intros h [Hu Hh]%list_elem_of_filter. split; [done|].
    by rewrite <- usedColumns1_has. }
  assert (Hin2 : ∀ h, h ∈ filter (λ h, h ∉ dom (mappingMap_of mappings))
                             (ParsedFile.headers file2)
                      → unmapped2 file2 mappings h).
  { intros h [Hu Hh]%list_elem_of_filter. split; [done|].
    by rewrite <- mappingMap_has. }
  apply NoDup_app. split; [by apply NoDup_filter|]. split.
  - intros h Hh [Hm|Hh2]%elem_of_app.
    + by apply (H1m h); [apply Hin1|].
    + by apply (H12 h); [apply Hin1|apply Hin2].
  - apply NoDup_app. split; [done|]. split; [|by apply NoDup_filter].
    intros h Hm Hh2. by apply (H2m h); [apply Hin2|].
Qed.

(** ** The handler, case by case *)

Lemma getProperty_payloadField (v : value) (k : string) :
  v ≠ VNull → v ≠ VUndefined → getProperty v k = Return (payloadField v k).
Proof. by destruct v. Qed.

Lemma truthy_not_nullish (v : value) :
  truthy v = true → v ≠ VNull ∧ v ≠ VUndefined.
Proof. by destruct v. Qed.

(** The handler on a body that is neither [null] nor [undefined]. *)
Lemma POST_on_body {Out : Type}
    (engine : RequestFile.t → RequestFile.t → list value → completion Out)
    (payload : value) :
  payload ≠ VNull → payload ≠ VUndefined →
  POST engine (Return payload)
  = if negb (truthy (payloadField payload "file1"))
       || negb (truthy (payloadField payload "file2"))
    then mkResponse (ErrorBody "Both files are required") 400
    else if negb (isArray (payloadField payload "mappings"))
    then mkResponse (ErrorBody "Mappings must be an array") 400
    else match engine (requestFile (payloadField payload "file1"))
                      (requestFile (payloadField payload "file2"))
                      (items (payloadField payload "mappings")) with
         | Return result => mkResponse (ResultBody result) 200
         | Throw => mkResponse (ErrorBody "Failed to merge files") 500
         end.
Proof.
  intros Hnull Hundef. unfold POST, POST_try.
  cbn [mbind completion_bind].
  rewrite !(getProperty_payloadField payload) by done.
  cbn [mbind completion_bind].
  destruct (truthy (payloadField payload "file1")) eqn:H1; [|done].
  destruct (truthy (payloadField payload "file2")) eqn:H2; [|done].
  destruct (isArray (payloadField payload "mappings")) eqn:H3; [|done].
  cbn [negb orb].
  apply truthy_not_nullish in H1 as [? ?]. apply truthy_not_nullish in H2 as [? ?].
  rewrite !getProperty_payloadField by done.
  cbn [mbind completion_bind]. unfold requestFile, items.
  by destruct (engine _ _ _).
Qed.

(** An invalid payload is answered before the engine comes into play. *)
Lemma POST_rejects (payload : value) :
  payload ≠ VNull → payload ≠ VUndefined →
  invalidPayload payload →
  ∃ msg, ∀ (Out : Type)
           (engine : RequestFile.t → RequestFile.t → list value → completion Out),
    POST engine (Return payload) = mkResponse (ErrorBody msg) 400.
Proof.
  intros Hnull Hundef Hinv.
  destruct (negb (truthy (payloadField payload "file1"))
            || negb (truthy (payloadField payload "file2"))) eqn:Hfiles.
  - exists "Both files are required". intros Out engine.
    by rewrite POST_on_body, Hfiles.
  - exists "Mappings must be an array". intros Out engine.
    rewrite POST_on_body, Hfiles by done.
    apply orb_false_elim in Hfiles as [H1%negb_false_iff H2%negb_false_iff].
    destruct Hinv as [?|[?|H3]]; [congruence..|by rewrite H3].
Qed.

(** A valid payload reaches the engine, whose completion decides the
    answer. *)
Lemma POST_invokes (payload : value) :
  payload ≠ VNull → payload ≠ VUndefined →
  ¬ invalidPayload payload →
  ∀ (Out : Type)
    (engine : RequestFile.t → RequestFile.t → list value → completion Out),
    POST engine (Return payload)
    = match engine (requestFile (payloadField payload "file1"))
                   (requestFile (payloadField payload "file2"))
                   (items (payloadField payload "mappings")) with
      | Return result => mkResponse (ResultBody result) 200
      | Throw => mkResponse (ErrorBody "Failed to merge files") 500
      end.
Proof.
  intros Hnull Hundef Hvalid Out engine. rewrite POST_on_body by done.
  unfold invalidPayload in Hvalid.
  destruct (truthy (payloadField payload "file1")); [|tauto].
  destruct (truthy (payloadField payload "file2")); [|tauto].
  destruct (isArray (payloadField payload "mappings")); [done|tauto].
Qed.

(** A body that cannot be read, or that is [null], never reaches the
    validation: the failure is caught and answered generically. *)
Lemma POST_unreadable_body {Out : Type}
    (engine : RequestFile.t → RequestFile.t → list value → completion Out) :
  POST engine Throw = mkResponse (ErrorBody "Failed to merge files") 500
  ∧ POST engine (Return VNull) = mkResponse (ErrorBody "Failed to merge files") 500.
Proof. split; reflexivity. Qed.

(** * Part IV: the properties of the specification *)

(** ** The merge engine *)

(** C1 (row-count law).  The merged dataset has as many rows as file1 and
    file2 together, whatever the correspondence list, and its [rowCount]
    field is the length of its [data] array. *)
Theorem C1_row_count (file1 file2 : ParsedFile.t) (mappings : list ColumnMapping.t) :
  length (MergeResult.data (mergeFiles file1 file2 mappings))
  = length (ParsedFile.data file1) + length (ParsedFile.data file2)
  ∧ MergeResult.rowCount (mergeFiles file1 file2 mappings)
    = length (MergeResult.data (mergeFiles file1 file2 mappings)).
Proof.
  split; [|reflexivity].
  by rewrite mergeFiles_data, length_app, !length_fmap.
Qed.

(** C2 (output column order).  The header list of the result is file1's
    headers that are the [column1] of no correspondence, in file1's order,
    then the [mergedName] of every correspondence in list order, then file2's
    headers that are the [column2] of no correspondence, in file2's order. *)
Theorem C2_header_order (file1 file2 : ParsedFile.t) (mappings : list ColumnMapping.t) :
  MergeResult.headers (mergeFiles file1 file2 mappings)
  = filter (λ h, h ∉ column1 <$> mappings) (ParsedFile.headers file1)
    ++ (mergedName <$> mappings)
    ++ filter (λ h, h ∉ column2 <$> mappings) (ParsedFile.headers file2).
Proof.
  unfold mergeFiles, mergedHeaders. cbn [MergeResult.headers].
  f_equal; [|f_equal]; apply list_filter_iff; intros h.
  - by rewrite usedColumns1_has.
  - by rewrite mappingMap_has.
Qed.

(** C3, as stated, fails: the list is valid, but the row built from file1's
    row holds [null] under the merged name ["age"], not that row's value at
    [column1], and the row built from file2's row holds file2's own ["age"],
    not its value at [column2]. *)
Lemma C3_counterexample :
  valid_correspondences collideA collideB collideMappings
  ∧ ∃ m row1 row2 out1 out2,
      m ∈ collideMappings
      ∧ ParsedFile.data collideA !! 0 = Some row1
      ∧ ParsedFile.data collideB !! 0 = Some row2
      ∧ MergeResult.data (mergeFiles collideA collideB collideMappings) !! 0 = Some out1
      ∧ MergeResult.data (mergeFiles collideA collideB collideMappings) !! 1 = Some out2
      ∧ get row1 (column1 m) = VString "a@x.com"
      ∧ get out1 (mergedName m) = VNull
      ∧ get out1 (mergedName m) ≠ get row1 (column1 m)
      ∧ get row2 (column2 m) = VString "b@x.com"
      ∧ get out2 (mergedName m) = VNumber 30
      ∧ get out2 (mergedName m) ≠ get row2 (column2 m).
Proof.
  split; [apply (bool_decide_unpack _); vm_compute; exact I|].
  eexists (ColumnMapping.mk "email" "e-mail" (9 # 10) "synonym" "age"), _, _, _, _.
  split; [by left|].
  repeat split; vm_compute; (reflexivity || discriminate).
Qed.

(** C3 (mapped-field correctness), amended.  For a valid correspondence
    list, when no output column is named [__proto__], and for a
    correspondence of the list whose merged name is not an unmapped column
    of file2: the row built from a row of file1 holds, under the merged
    name, what that row yields at [column1]; the row built from a row of
    file2 holds what that row yields at [column2]. *)
Theorem C3_mapped_field (file1 file2 : ParsedFile.t)
    (mappings : list ColumnMapping.t) (m : ColumnMapping.t) :
  valid_correspondences file1 file2 mappings →
  plainOutputNames file1 file2 mappings →
  m ∈ mappings →
  ¬ unmapped2 file2 mappings (mergedName m) →
  (∀ i row, ParsedFile.data file1 !! i = Some row →
     ∃ out, MergeResult.data (mergeFiles file1 file2 mappings) !! i = Some out
            ∧ out !! mergedName m = Some (get row (column1 m)))
  ∧ (∀ i row, ParsedFile.data file2 !! i = Some row →
     ∃ out, MergeResult.data (mergeFiles file1 file2 mappings)
              !! (length (ParsedFile.data file1) + i) = Some out
            ∧ out !! mergedName m = Some (get row (column2 m))).
Proof.
  intros (_ & _ & _ & Hnd) Hplain Hm Hfree.
  destruct (plain_names _ _ _ Hplain) as (_ & Hname & _ & _).
  assert (Hsame : ∀ m', m' ∈ mappings → mergedName m' = mergedName m → m' = m).
  { intros m' Hm' Heq. by apply (NoDup_fmap_eq mergedName mappings). }
  split; intros i row Hrow; eexists; split.
  - by apply mergeFiles_row1.
  - rewrite mergedRow1_writes.
    apply (row_mapped _ _ _ _ (λ m, get row (column1 m))); [by apply Hname|done..|].
    intros m' Hm' Heq. by rewrite (Hsame m').
  - by apply mergeFiles_row2.
  - rewrite mergedRow2_writes.
    apply (row_mapped _ _ _ _ (λ m, get row (column2 m))); [by apply Hname|done..|].
    intros m' Hm' Heq. by rewrite (Hsame m').
Qed.

(** C3 at the scenario of the specification. *)
Lemma C3_mapped_field_witness :
  valid_correspondences scenarioA scenarioB scenarioMappings
  ∧ plainOutputNames scenarioA scenarioB scenarioMappings
  ∧ scenarioMapping ∈ scenarioMappings
  ∧ ¬ unmapped2 scenarioB scenarioMappings (mergedName scenarioMapping)
  ∧ (∀ i row, ParsedFile.data scenarioA !! i = Some row →
       ∃ out, MergeResult.data (mergeFiles scenarioA scenarioB scenarioMappings) !! i
              = Some out
              ∧ out !! "email" = Some (get row "email"))
  ∧ (∀ i row, ParsedFile.data scenarioB !! i = Some row →
       ∃ out, MergeResult.data (mergeFiles scenarioA scenarioB scenarioMappings)
                !! (1 + i) = Some out
              ∧ out !! "email" = Some (get row "e-mail")).
Proof.
  assert (Hv : valid_correspondences scenarioA scenarioB scenarioMappings).
  { apply (bool_decide_unpack _). vm_compute. exact I. }
  assert (Hp : plainOutputNames scenarioA scenarioB scenarioMappings).
  { apply (bool_decide_unpack _). vm_compute. exact I. }
  assert (Hm : scenarioMapping ∈ scenarioMappings) by (by left).
  assert (Hf : ¬ unmapped2 scenarioB scenarioMappings (mergedName scenarioMapping)).
  { intros [Hin _]. revert Hin. apply (bool_decide_unpack _). vm_compute. exact I. }
  split; [exact Hv|]. split; [exact Hp|]. split; [exact Hm|]. split; [exact Hf|].
  exact (C3_mapped_field scenarioA scenarioB scenarioMappings scenarioMapping
           Hv Hp Hm Hf).
Defined.

(** C4, as stated, fails: ["id"] is an unmapped column of file1, and the row
    built from file2's row holds file2's value there, not the marker. *)
Lemma C4_counterexample :
  valid_correspondences sharedA sharedB []
  ∧ unmapped1 sharedA [] "id"
  ∧ ∃ out, MergeResult.data (mergeFiles sharedA sharedB [])
             !! (length (ParsedFile.data sharedA) + 0) = Some out
           ∧ out !! "id" = Some (VNumber 2)
           ∧ out !! "id" ≠ Some no_value.
Proof.
  split; [apply (bool_decide_unpack _); vm_compute; exact I|].
  split; [split; [by left|apply not_elem_of_nil]|].
  eexists. repeat split; vm_compute; (reflexivity || discriminate).
Qed.

(** C4 (cross-fill nullness), amended.  When no output column is named
    [__proto__]: in every row built from file1, every unmapped column of
    file2 is present and holds the "no value" marker; in every row built
    from file2, every unmapped column of file1 that is neither a merged name
    nor an unmapped column of file2 is present and holds the marker. *)
Theorem C4_cross_fill (file1 file2 : ParsedFile.t) (mappings : list ColumnMapping.t) :
  plainOutputNames file1 file2 mappings →
  (∀ i row, ParsedFile.data file1 !! i = Some row →
     ∃ out, MergeResult.data (mergeFiles file1 file2 mappings) !! i = Some out
            ∧ ∀ h, unmapped2 file2 mappings h → out !! h = Some no_value)
  ∧ (∀ i row, ParsedFile.data file2 !! i = Some row →
     ∃ out, MergeResult.data (mergeFiles file1 file2 mappings)
              !! (length (ParsedFile.data file1) + i) = Some out
            ∧ ∀ h, unmapped1 file1 mappings h →
                   h ∉ mergedName <$> mappings →
                   ¬ unmapped2 file2 mappings h →
                   out !! h = Some no_value).
Proof.
  intros Hplain.
  destruct (plain_names _ _ _ Hplain) as (Hname1 & _ & Hname2 & _).
  split; intros i row Hrow; eexists; split.
  - by apply mergeFiles_row1.
  - intros h Hh. rewrite mergedRow1_writes.
    by apply (row_unmapped2 _ _ _ _ _ (λ _, VNull)); [apply Hname2|].
  - by apply mergeFiles_row2.
  - intros h H1 Hm H2. rewrite mergedRow2_writes.
    by apply (row_unmapped1 _ _ _ (λ _, VNull)); [apply Hname1|..].
Qed.

(** C4 at the scenario: ["age"] in the row built from file1's row, ["name"]
    in the row built from file2's row. *)
Lemma C4_cross_fill_witness :
  plainOutputNames scenarioA scenarioB scenarioMappings
  ∧ ∃ out1 out2,
    MergeResult.data (mergeFiles scenarioA scenarioB scenarioMappings) !! 0 = Some out1
    ∧ out1 !! "age" = Some no_value
    ∧ MergeResult.data (mergeFiles scenarioA scenarioB scenarioMappings) !! 1 = Some out2
    ∧ out2 !! "name" = Some no_value.
Proof.
  assert (Hp : plainOutputNames scenarioA scenarioB scenarioMappings).
  { apply (bool_decide_unpack _). vm_compute. exact I. }
  split; [exact Hp|].
  destruct (C4_cross_fill scenarioA scenarioB scenarioMappings Hp) as [H1 H2].
  destruct (H1 0 _ eq_refl) as (out1 & Hout1 & Hnull1).
  destruct (H2 0 _ eq_refl) as (out2 & Hout2 & Hnull2).
  exists out1, out2. split; [exact Hout1|]. split.
  - apply Hnull1. apply (bool_decide_unpack _). vm_compute. exact I.
  - split; [exact Hout2|].
    apply Hnull2; apply (bool_decide_unpack _); vm_compute; exact I.
Defined.

(** C5, as stated, fails: the first output row, projected onto file1's
    unmapped column ["id"], is [null] where file1's row has 1. *)
Lemma C5_counterexample :
  unmapped1 sharedA [] "id"
  ∧ ∃ row out, ParsedFile.data sharedA !! 0 = Some row
      ∧ MergeResult.data (mergeFiles sharedA sharedB []) !! 0 = Some out
      ∧ get row "id" = VNumber 1
      ∧ get out "id" = VNull
      ∧ get out "id" ≠ get row "id".
Proof.
  split; [split; [by left|apply not_elem_of_nil]|].
  eexists _, _. repeat split; vm_compute; (reflexivity || discriminate).
Qed.

(** C5 (order preservation), amended.  When no output column is named
    [__proto__]: the [i]-th output row agrees with the [i]-th row of file1
    on every unmapped column of file1 that is neither a merged name nor an
    unmapped column of file2; the output row at [length file1.data + i]
    agrees with the [i]-th row of file2 on every unmapped column of file2.
    The output row owns the field, and the field is what the input row
    yields under that name. *)
Theorem C5_order_preservation (file1 file2 : ParsedFile.t)
    (mappings : list ColumnMapping.t) :
  plainOutputNames file1 file2 mappings →
  (∀ i row, ParsedFile.data file1 !! i = Some row →
     ∃ out, MergeResult.data (mergeFiles file1 file2 mappings) !! i = Some out
            ∧ ∀ h, unmapped1 file1 mappings h →
                   h ∉ mergedName <$> mappings →
                   ¬ unmapped2 file2 mappings h →
                   out !! h = Some (get row h) ∧ get out h = get row h)
  ∧ (∀ i row, ParsedFile.data file2 !! i = Some row →
     ∃ out, MergeResult.data (mergeFiles file1 file2 mappings)
              !! (length (ParsedFile.data file1) + i) = Some out
            ∧ ∀ h, unmapped2 file2 mappings h →
                   out !! h = Some (get row h) ∧ get out h = get row h).
Proof.
  intros Hplain.
  destruct (plain_names _ _ _ Hplain) as (Hname1 & _ & Hname2 & _).
  assert (Hget : ∀ (out : gmap string value) h v,
            out !! h = Some v → out !! h = Some v ∧ get out h = v).
  { intros out h v Hv. split; [done|]. unfold get. by rewrite Hv. }
  split; intros i row Hrow; eexists; split.
  - by apply mergeFiles_row1.
  - intros h H1 Hm H2. apply Hget. rewrite mergedRow1_writes.
    by apply (row_unmapped1 _ _ _ (get row)); [apply Hname1|..].
  - by apply mergeFiles_row2.
  - intros h Hh. apply Hget. rewrite mergedRow2_writes.
    by apply (row_unmapped2 _ _ _ _ _ (get row)); [apply Hname2|].
Qed.

(** C5 at the scenario: ["name"] of file1's row and ["age"] of file2's row
    are carried over. *)
Lemma C5_order_preservation_witness :
  plainOutputNames scenarioA scenarioB scenarioMappings
  ∧ ∃ out1 out2,
    MergeResult.data (mergeFiles scenarioA scenarioB scenarioMappings) !! 0 = Some out1
    ∧ out1 !! "name" = Some (VString "Ann")
    ∧ MergeResult.data (mergeFiles scenarioA scenarioB scenarioMappings) !! 1 = Some out2
    ∧ out2 !! "age" = Some (VNumber 30).
Proof.
  assert (Hp : plainOutputNames scenarioA scenarioB scenarioMappings).
  { apply (bool_decide_unpack _). vm_compute. exact I. }
  split; [exact Hp|].
  destruct (C5_order_preservation scenarioA scenarioB scenarioMappings Hp) as [H1 H2].
  destruct (H1 0 _ eq_refl) as (out1 & Hout1 & Hkeep1).
  destruct (H2 0 _ eq_refl) as (out2 & Hout2 & Hkeep2).
  exists out1, out2. split; [exact Hout1|]. split.
  - apply Hkeep1; apply (bool_decide_unpack _); vm_compute; exact I.
  - split; [exact Hout2|].
    apply Hkeep2. apply (bool_decide_unpack _). vm_compute. exact I.
Defined.




(** C7: the header list is a plain concatenation; nothing removes a repeated
    name.  A merged name shared by two correspondences is listed twice, a
    merged name equal to an unmapped column is listed twice, and so is a
    column name that both files leave unmapped. *)
Theorem C7_headers_keep_duplicates :
  MergeResult.headers (mergeFiles twinA twinB twinMappings) = ["x"; "x"]
  ∧ ¬ NoDup (MergeResult.headers (mergeFiles twinA twinB twinMappings))
  ∧ MergeResult.headers (mergeFiles collideA collideB collideMappings) = ["age"; "age"]
  ∧ MergeResult.headers (mergeFiles sharedA sharedB []) = ["id"; "id"].
Proof.
  repeat split; try (vm_compute; reflexivity).
  apply (bool_decide_unpack _). vm_compute. exact I.
Qed.

(** C8, as stated, fails in its second half: the field read from a row that
    lacks it is stored as [undefined], which is not the [null] marker. *)
Lemma C8_counterexample :
  ∃ row out, ParsedFile.data sparseA !! 0 = Some row
    ∧ row !! "a" = None
    ∧ MergeResult.data (mergeFiles sparseA emptyB []) !! 0 = Some out
    ∧ out !! "a" = Some VUndefined
    ∧ out !! "a" ≠ Some no_value.
Proof.
  eexists _, _. repeat split; vm_compute; (reflexivity || discriminate).
Qed.

(** C8 (missing keys), amended.  On files in which no output column is named
    [__proto__], every input row has its output row, whatever keys the row
    owns.  When a row does not own a name and [Object.prototype] holds
    nothing under it, the output field fed by the read of that name is
    present and holds [undefined] (not [null]) whenever no later write of
    the same row construction targets the same output name: an unmapped
    column of file2 in a row from file2; a merged name that is not an
    unmapped column of file2 and whose correspondences all read such names;
    an unmapped column of file1, in a row from file1, that is neither a
    merged name nor an unmapped column of file2. *)
Theorem C8_absent_reads (file1 file2 : ParsedFile.t) (mappings : list ColumnMapping.t) :
  plainOutputNames file1 file2 mappings →
  (∀ i row, ParsedFile.data file1 !! i = Some row →
     ∃ out, MergeResult.data (mergeFiles file1 file2 mappings) !! i = Some out
       ∧ (∀ h, unmapped1 file1 mappings h →
               h ∉ mergedName <$> mappings →
               ¬ unmapped2 file2 mappings h →
               row !! h = None → ¬ inheritedName h →
               out !! h = Some VUndefined)
       ∧ (∀ m, m ∈ mappings →
               ¬ unmapped2 file2 mappings (mergedName m) →
               (∀ m', m' ∈ mappings → mergedName m' = mergedName m →
                      row !! column1 m' = None ∧ ¬ inheritedName (column1 m')) →
               out !! mergedName m = Some VUndefined))
  ∧ (∀ i row, ParsedFile.data file2 !! i = Some row →
     ∃ out, MergeResult.data (mergeFiles file1 file2 mappings)
              !! (length (ParsedFile.data file1) + i) = Some out
       ∧ (∀ h, unmapped2 file2 mappings h →
               row !! h = None → ¬ inheritedName h →
               out !! h = Some VUndefined)
       ∧ (∀ m, m ∈ mappings →
               ¬ unmapped2 file2 mappings (mergedName m) →
               (∀ m', m' ∈ mappings → mergedName m' = mergedName m →
                      row !! column2 m' = None ∧ ¬ inheritedName (column2 m')) →
               out !! mergedName m = Some VUndefined)).
Proof.
  intros Hplain.
  destruct (plain_names _ _ _ Hplain) as (Hname1 & Hname & Hname2 & _).
  split; intros i row Hrow; eexists; (split; [|split]).
  - by apply mergeFiles_row1.
  - intros h H1 Hm H2 Hnone Hown. rewrite mergedRow1_writes.
    rewrite (row_unmapped1 _ _ _ (get row)) by (by try apply Hname1).
    by rewrite get_absent.
  - intros m Hm H2 Hnone. rewrite mergedRow1_writes.
    rewrite (row_mapped _ _ _ _ (λ m, get row (column1 m)) _ m);
      [|by apply Hname|done..|].
    + destruct (Hnone m Hm eq_refl). by rewrite get_absent.
    + intros m' Hm' Heq. cbn.
      destruct (Hnone m Hm eq_refl), (Hnone m' Hm' Heq).
      by rewrite !get_absent.
  - by apply mergeFiles_row2.
  - intros h Hh Hnone Hown. rewrite mergedRow2_writes.
    rewrite (row_unmapped2 _ _ _ _ _ (get row)) by (by try apply Hname2).
    by rewrite get_absent.
  - intros m Hm H2 Hnone. rewrite mergedRow2_writes.
    rewrite (row_mapped _ _ _ _ (λ m, get row (column2 m)) _ m);
      [|by apply Hname|done..|].
    + destruct (Hnone m Hm eq_refl). by rewrite get_absent.
    + intros m' Hm' Heq. cbn.
      destruct (Hnone m Hm eq_refl), (Hnone m' Hm' Heq).
      by rewrite !get_absent.
Qed.

(** C8 at a row that lacks the column its file declares. *)
Lemma C8_absent_reads_witness :
  plainOutputNames sparseA emptyB []
  ∧ ∃ out, MergeResult.data (mergeFiles sparseA emptyB []) !! 0 = Some out
           ∧ out !! "a" = Some VUndefined.
Proof.
  assert (Hp : plainOutputNames sparseA emptyB []).
  { apply (bool_decide_unpack _). vm_compute. exact I. }
  split; [exact Hp|].
  destruct (C8_absent_reads sparseA emptyB [] Hp) as (H1 & _).
  destruct (H1 0 _ eq_refl) as (out & Hout & Hcol & _).
  exists out. split; [exact Hout|].
  apply Hcol; [apply (bool_decide_unpack _); vm_compute; exact I ..| |].
  - reflexivity.
  - apply (bool_decide_unpack _). vm_compute. exact I.
Defined.




(** ** The merge route *)

(** C9, as stated, fails: the body [null] carries neither dataset and no
    list of mappings, yet the answer is the generic 500, not a 400. *)
Lemma C9_counterexample :
  invalidPayload VNull
  ∧ POST mergeFiles_on_payload (Return VNull)
    = mkResponse (ErrorBody "Failed to merge files") 500
  ∧ status (POST mergeFiles_on_payload (Return VNull)) ≠ 400.
Proof.
  split; [by left|]. split; [reflexivity|]. vm_compute. discriminate.
Qed.

(** C9 (merge boundary), amended.  For a request whose body is a JSON value
    other than [null]:
    - when [file1] or [file2] is missing (falsy) or [mappings] is not an
      array, the answer is a 400 with an error message, the same whatever
      the engine is: the engine is not invoked;
    - otherwise the engine is invoked on the two files and the mappings; if
      it throws, the answer is the generic error with status 500 and no
      dataset; if it returns, the answer is the dataset with status 200;
    - so the answer is a 400 exactly when the payload is invalid. *)
Theorem C9_merge_boundary (payload : value) :
  payload ≠ VNull → payload ≠ VUndefined →
  (invalidPayload payload →
     ∃ msg, ∀ (Out : Type)
              (engine : RequestFile.t → RequestFile.t → list value → completion Out),
       POST engine (Return payload) = mkResponse (ErrorBody msg) 400)
  ∧ (¬ invalidPayload payload →
     ∀ (Out : Type)
       (engine : RequestFile.t → RequestFile.t → list value → completion Out),
       POST engine (Return payload)
       = match engine (requestFile (payloadField payload "file1"))
                      (requestFile (payloadField payload "file2"))
                      (items (payloadField payload "mappings")) with
         | Return result => mkResponse (ResultBody result) 200
         | Throw => mkResponse (ErrorBody "Failed to merge files") 500
         end)
  ∧ (∀ (Out : Type)
       (engine : RequestFile.t → RequestFile.t → list value → completion Out),
       status (POST engine (Return payload)) = 400 ↔ invalidPayload payload).
Proof.
  intros Hnull Hundef. split; [by apply POST_rejects|].
  split; [by apply POST_invokes|].
  intros Out engine. destruct (decide (invalidPayload payload)) as [Hinv|Hval].
  - destruct (POST_rejects payload Hnull Hundef Hinv) as [msg Hmsg].
    by rewrite Hmsg.
  - rewrite POST_invokes by done. split; [|done].
    destruct (engine _ _ _); cbn [status]; discriminate.
Qed.

(** C9 at the request of the scenario. *)
Lemma C9_merge_boundary_witness :
  scenarioRequest ≠ VNull ∧ scenarioRequest ≠ VUndefined
  ∧ ∀ (Out : Type)
      (engine : RequestFile.t → RequestFile.t → list value → completion Out),
      status (POST engine (Return scenarioRequest)) = 400
      ↔ invalidPayload scenarioRequest.
Proof.
  assert (H1 : scenarioRequest ≠ VNull) by discriminate.
  assert (H2 : scenarioRequest ≠ VUndefined) by discriminate.
  split; [exact H1|]. split; [exact H2|].
  exact (proj2 (proj2 (C9_merge_boundary scenarioRequest H1 H2))).
Defined.

(** * Part V: further properties of the code *)

(** ** getSampleData *)

Lemma take_min_length {A} (l : list A) (z : Z) :
  (0 ≤ z)%Z →
  take (Z.to_nat (Z.min z (Z.of_nat (length l)))) l = take (Z.to_nat z) l.
Proof.
  intros Hz. destruct (decide (z ≤ Z.of_nat (length l))%Z) as [Hle|Hgt].
  - by rewrite Z.min_l.
  - rewrite Z.min_r by lia. rewrite Nat2Z.id.
    rewrite !take_ge; [done|lia..].
Qed.

(** A non-negative size selects the first [⌊q⌋] elements. *)
Lemma slice0_Math_min_nonneg {A} (l : list A) (q : Q) :
  (0 <= q)%Q →
  slice0 l (Math_min (Finite q) (length l)) = take (Z.to_nat (Qfloor q)) l.
Proof.
  intros Hq. destruct q as [num den].
  assert (Hnum : (0 ≤ num)%Z).
  { unfold Qle in Hq. cbn in Hq. lia. }
  unfold Math_min.
  destruct (Qle_bool _ _) eqn:Hle; unfold slice0, ToIntegerOrInfinity, Qfloor;
    cbn [Qnum Qden inject_Z].
  - rewrite Z.quot_div_nonneg by lia.
    assert (H0 : (0 ≤ num / Z.pos den)%Z) by (apply Z.div_pos; lia).
    destruct (Z.ltb_spec (num / Z.pos den) 0); [lia|].
    by apply take_min_length.
  - assert (Hgt : (Z.of_nat (length l) * Z.pos den < num)%Z).
    { destruct (Z.lt_ge_cases (Z.of_nat (length l) * Z.pos den) num) as [?|Hge];
        [done|].
      exfalso. apply not_true_iff_false in Hle. apply Hle.
      apply Qle_bool_iff. unfold Qle. cbn. lia. }
    assert (Hfloor : (Z.of_nat (length l) ≤ num / Z.pos den)%Z).
    { apply Z.div_le_lower_bound; lia. }
    rewrite Z.quot_1_r.
    destruct (Z.ltb_spec (Z.of_nat (length l)) 0); [lia|].
    rewrite Z.min_id, Nat2Z.id. rewrite !take_ge; [done|lia..].
Qed.

(** The function is [slice] after [Math.min], at the size given or at 5. *)
Lemma getSampleData_unfold (data : list (gmap string value)) :
  getSampleData data None
  = slice0 data (Math_min (Finite (inject_Z 5)) (length data))
  ∧ ∀ x, getSampleData data (Some x) = slice0 data (Math_min x (length data)).
Proof. split; reflexivity. Qed.

(** X1: getSampleData, sizes from zero up.  For a finite [sampleSize >= 0] the
    result is the first [⌊sampleSize⌋] rows of [data], all of them when
    there are fewer, so that it has [min ⌊sampleSize⌋ data.length] rows;
    with [sampleSize] omitted it is the first five rows. *)
Theorem getSampleData_first_rows (data : list (gmap string value)) :
  getSampleData data None = take 5 data
  ∧ ∀ q : Q, (0 <= q)%Q →
      getSampleData data (Some (Finite q)) = take (Z.to_nat (Qfloor q)) data
      ∧ length (getSampleData data (Some (Finite q)))
        = Z.to_nat (Qfloor q) `min` length data.
Proof.
  destruct (getSampleData_unfold data) as [Hnone Hsome]. split.
  - rewrite Hnone. by rewrite slice0_Math_min_nonneg.
  - intros q Hq. rewrite Hsome.
    rewrite slice0_Math_min_nonneg by done. split; [done|].
    apply length_take.
Qed.



(** X3: getSampleData, applied twice.  For a finite [sampleSize >= 0], sampling
    a sample changes nothing. *)
Theorem getSampleData_idempotent (data : list (gmap string value)) (q : Q) :
  (0 <= q)%Q →
  getSampleData (getSampleData data (Some (Finite q))) (Some (Finite q))
  = getSampleData data (Some (Finite q)).
Proof.
  intros Hq.
  rewrite !(proj2 (getSampleData_unfold _)).
  rewrite !slice0_Math_min_nonneg by done.
  rewrite take_take. f_equal. lia.
Qed.

Lemma getSampleData_idempotent_witness :
  (0 <= 5 # 2)%Q
  ∧ getSampleData (getSampleData (replicate 7 ∅) (Some (Finite (5 # 2))))
                  (Some (Finite (5 # 2)))
    = getSampleData (replicate 7 ∅) (Some (Finite (5 # 2))).
Proof.
  assert (H : (0 <= 5 # 2)%Q) by (unfold Qle; cbn; lia).
  split; [exact H|]. exact (getSampleData_idempotent (replicate 7 ∅) (5 # 2) H).
Defined.

(** ** parseFile *)

Lemma split_nonempty (sep : ascii) (s : string) : split sep s ≠ [].
Proof.
  destruct s as [|c rest]; [done|]. cbn.
  destruct (decide (c = sep)); [done|]. by destruct (split sep rest).
Qed.

(** Splitting at an occurrence of the separator splits both sides. *)
Lemma split_app (sep : ascii) (a b : string) :
  split sep (a +:+ String sep b) = split sep a ++ split sep b.
Proof.
  induction a as [|c a IH].
  - change ("" +:+ String sep b) with (String sep b). cbn [split].
    by rewrite decide_True.
  - change (String c a +:+ String sep b) with (String c (a +:+ String sep b)).
    cbn [split]. destruct (decide (c = sep)); [by rewrite IH|].
    rewrite IH. pose proof (split_nonempty sep a) as Hne.
    by destruct (split sep a).
Qed.

Lemma split_dotFree (s : string) : dotFree s → split "."%char s = [s].
Proof.
  unfold dotFree. induction s as [|c s IH]; [done|].
  cbn. intros [Hc Hs]%not_elem_of_cons.
  destruct (decide (c = "."%char)); [done|]. by rewrite IH.
Qed.

(** The text after the last dot, when it has no dot itself. *)
Lemma extensionOf_app (base ext : string) :
  dotFree ext → extensionOf (base +:+ String "."%char ext) = Some (toLowerCase ext).
Proof.
  intros Hext. unfold extensionOf.
  by rewrite split_app, (split_dotFree ext), last_snoc.
Qed.

(** X4: parseFile, the extension.  The type of a file is decided by the text
    after the last dot of its name, whatever the case of its letters (for
    an extension in ASCII); a name without a dot counts as an extension in
    full, so a file named ["csv"] is taken for a CSV file. *)
Theorem extensionOf_last_dot (base ext : string) :
  dotFree ext →
  asciiText ext →
  extensionOf (base +:+ "." +:+ ext) = Some (toLowerCase ext)
  ∧ extensionOf ext = Some (toLowerCase ext).
Proof.
  intros Hext _. split.
  - change (base +:+ "." +:+ ext) with (base +:+ String "."%char ext).
    by apply extensionOf_app.
  - unfold extensionOf. by rewrite split_dotFree.
Qed.

Lemma extensionOf_last_dot_witness :
  dotFree "CSV" ∧ asciiText "CSV"
  ∧ extensionOf ("report.final" +:+ "." +:+ "CSV") = Some "csv"
  ∧ extensionOf "CSV" = Some "csv".
Proof.
  assert (H : dotFree "CSV") by (apply (bool_decide_unpack _); vm_compute; exact I).
  assert (Ha : asciiText "CSV") by (apply (bool_decide_unpack _); vm_compute; exact I).
  split; [exact H|]. split; [exact Ha|].
  exact (extensionOf_last_dot "report.final" "CSV" H Ha).
Defined.

(** What a resolved [parseFile] has done. *)
Lemma parseFile_Resolved_inv (file : File.t) (p : ParsedFile.t) :
  parseFile file = Resolved p →
  ∃ rows,
    p = ParsedFile.mk (File.name file) (Object_keys (firstOrEmpty rows))
          (rowOf <$> rows) (inject_Z (Z.of_nat (length rows)))
    ∧ ((extensionOf (File.name file) = Some "csv"
        ∧ File.asCsv file = PapaComplete [] rows)
       ∨ ((extensionOf (File.name file) = Some "xlsx"
           ∨ extensionOf (File.name file) = Some "xls")
          ∧ File.asWorkbook file = SheetRows rows)).
Proof.
  unfold parseFile. cbv zeta.
  destruct (decide (extensionOf (File.name file) = Some "csv")) as [Hcsv|_].
  - destruct (File.asCsv file) as [[|e es] rows|err]; [|done..].
    intros [= <-]. exists rows. split; [done|]. by left.
  - destruct (decide (_ ∨ _)) as [Hx|_]; [|done].
    destruct (File.asWorkbook file) as [|err|rows]; [done..|].
    intros [= <-]. exists rows. split; [done|]. by right.
Qed.

(** X7: parseFile, resolved values.  A file that [parseFile] resolves keeps the
    name of the upload, its [rowCount] is the length of its [data], and its
    headers are the keys of its first row: none when there is no row. *)
Theorem parseFile_resolved_invariants (file : File.t) (p : ParsedFile.t) :
  parseFile file = Resolved p →
  ParsedFile.name p = File.name file
  ∧ ParsedFile.rowCount p = inject_Z (Z.of_nat (length (ParsedFile.data p)))
  ∧ match ParsedFile.data p with
    | [] => ParsedFile.headers p = []
    | first :: _ => dom first = list_to_set (ParsedFile.headers p)
    end.
Proof.
  intros (rows & -> & _)%parseFile_Resolved_inv. cbn.
  split; [done|]. split; [by rewrite length_fmap|].
  destruct rows as [|first rows]; [done|].
  cbn. unfold rowOf, Object_keys. apply dom_list_to_map_L.
Qed.

Example sheetFile_parsed : parseFile sheetFile = Resolved sheetParsed.
Proof. vm_compute. reflexivity. Qed.

Example csvFile_parsed : parseFile csvFile = Resolved csvParsed.
Proof. vm_compute. reflexivity. Qed.

Lemma parseFile_resolved_invariants_witness :
  parseFile sheetFile = Resolved sheetParsed
  ∧ ParsedFile.name sheetParsed = "people.xlsx"
  ∧ ParsedFile.rowCount sheetParsed
    = inject_Z (Z.of_nat (length (ParsedFile.data sheetParsed)))
  ∧ dom ({[ "id" := VNumber 1 ]} : gmap string value)
    = list_to_set (ParsedFile.headers sheetParsed).
Proof.
  assert (H : parseFile sheetFile = Resolved sheetParsed)
    by (vm_compute; reflexivity).
  split; [exact H|]. exact (parseFile_resolved_invariants sheetFile sheetParsed H).
Defined.

(** X5: parseFile, when it resolves.  [parseFile] resolves exactly in two cases:
    the extension is [csv] and the CSV parser completed without reporting a
    single error, or the extension is [xlsx] or [xls] and the first sheet was
    read.  One reported CSV error discards all parsed rows. *)
Theorem parseFile_resolves_iff (file : File.t) :
  (∃ p, parseFile file = Resolved p)
  ↔ (extensionOf (File.name file) = Some "csv"
     ∧ ∃ rows, File.asCsv file = PapaComplete [] rows)
    ∨ ((extensionOf (File.name file) = Some "xlsx"
        ∨ extensionOf (File.name file) = Some "xls")
       ∧ ∃ rows, File.asWorkbook file = SheetRows rows).
Proof.
  split.
  - intros [p (rows & _ & [[? ?]|[? ?]])%parseFile_Resolved_inv]; eauto.
  - unfold parseFile. cbv zeta.
    intros [[Hcsv [rows Hrows]]|[Hx [rows Hrows]]].
    + rewrite decide_True by done. rewrite Hrows. eauto.
    + destruct (decide (extensionOf (File.name file) = Some "csv")) as [Hcsv|_].
      { destruct Hx as [Hx|Hx]; rewrite Hcsv in Hx; discriminate. }
      rewrite decide_True by done. rewrite Hrows. eauto.
Qed.

(** X6: parseFile, other extensions.  A name whose text after the last dot is
    ASCII and, in lower case, none of [csv], [xlsx], [xls] is rejected with
    a message that quotes that lower-cased text, and the content of the
    file plays no part; the same holds for a name without a dot, taken
    whole. *)
Theorem parseFile_unsupported_extension (base ext : string)
    (csv : papaOutcome) (workbook : workbookOutcome) :
  dotFree ext →
  asciiText ext →
  ¬ supportedExtension (toLowerCase ext) →
  parseFile (File.mk (base +:+ "." +:+ ext) csv workbook)
  = Rejected (NewError ("Unsupported file type: " +:+ toLowerCase ext))
  ∧ parseFile (File.mk ext csv workbook)
    = Rejected (NewError ("Unsupported file type: " +:+ toLowerCase ext)).
Proof.
  intros Hdot _ Hunsupported.
  assert (Hreject : ∀ name, extensionOf name = Some (toLowerCase ext) →
    parseFile (File.mk name csv workbook)
    = Rejected (NewError ("Unsupported file type: " +:+ toLowerCase ext))).
  { intros name Hext. unfold parseFile. cbv zeta. cbn [File.name].
    rewrite Hext. unfold supportedExtension in Hunsupported.
    rewrite decide_False by (intros [= Heq]; tauto).
    rewrite decide_False by (intros [[= Heq]|[= Heq]]; tauto).
    done. }
  split; apply Hreject.
  - change (base +:+ "." +:+ ext) with (base +:+ String "."%char ext).
    by apply extensionOf_app.
  - unfold extensionOf. by rewrite split_dotFree.
Qed.

Lemma parseFile_unsupported_extension_witness :
  dotFree "TXT" ∧ asciiText "TXT" ∧ ¬ supportedExtension (toLowerCase "TXT")
  ∧ parseFile (File.mk ("notes" +:+ "." +:+ "TXT") (PapaComplete [] []) (SheetRows []))
    = Rejected (NewError "Unsupported file type: txt")
  ∧ parseFile (File.mk "TXT" (PapaComplete [] []) (SheetRows []))
    = Rejected (NewError "Unsupported file type: txt").
Proof.
  assert (H1 : dotFree "TXT") by (apply (bool_decide_unpack _); vm_compute; exact I).
  assert (H2 : ¬ supportedExtension (toLowerCase "TXT"))
    by (apply (bool_decide_unpack _); vm_compute; exact I).
  assert (Ha : asciiText "TXT") by (apply (bool_decide_unpack _); vm_compute; exact I).
  split; [exact H1|]. split; [exact Ha|]. split; [exact H2|].
  exact (parseFile_unsupported_extension "notes" "TXT" (PapaComplete [] [])
           (SheetRows []) H1 Ha H2).
Defined.

(** ** parseFile, then mergeFiles *)

(** X8: parseFile then mergeFiles, row counts.  When both inputs come from
    [parseFile], the [rowCount] of the merge is the sum of their [rowCount]
    fields. *)
Theorem parsed_files_rowCount_adds (fileA fileB : File.t) (A B : ParsedFile.t)
    (mappings : list ColumnMapping.t) :
  parseFile fileA = Resolved A →
  parseFile fileB = Resolved B →
  inject_Z (Z.of_nat (MergeResult.rowCount (mergeFiles A B mappings)))
  = (ParsedFile.rowCount A + ParsedFile.rowCount B)%Q.
Proof.
  intros (rowsA & -> & _)%parseFile_Resolved_inv
         (rowsB & -> & _)%parseFile_Resolved_inv.
  change (MergeResult.rowCount (mergeFiles ?a ?b ?m))
    with (length (MergeResult.data (mergeFiles a b m))).
  rewrite mergeFiles_data, length_app, !length_fmap. cbn [ParsedFile.data ParsedFile.rowCount].
  rewrite !length_fmap. unfold Qplus, inject_Z. cbn [Qnum Qden].
  f_equal. lia.
Qed.

Lemma parsed_files_rowCount_adds_witness :
  parseFile sheetFile = Resolved sheetParsed
  ∧ parseFile csvFile = Resolved csvParsed
  ∧ inject_Z (Z.of_nat (MergeResult.rowCount (mergeFiles sheetParsed csvParsed [])))
    = (2 + 1)%Q.
Proof.
  assert (H1 : parseFile sheetFile = Resolved sheetParsed) by (vm_compute; reflexivity).
  assert (H2 : parseFile csvFile = Resolved csvParsed) by (vm_compute; reflexivity).
  split; [exact H1|]. split; [exact H2|].
  exact (parsed_files_rowCount_adds sheetFile csvFile sheetParsed csvParsed [] H1 H2).
Defined.





(** ** mergeFiles, beyond the specification *)

(** A field of an object built by writes was written, or was there before. *)
Lemma assign_lookup_Some ws acc k v :
  assign ws acc !! k = Some v → (k, v) ∈ ws ∨ acc !! k = Some v.
Proof.
  revert acc. induction ws as [|[k' v'] ws IH]; intros acc; [by right|].
  rewrite assign_cons. intros [Hin|Hacc]%IH.
  - left. by right.
  - cbn in Hacc. unfold setProperty in Hacc.
    destruct (decide (k' = "__proto__")); [by right|].
    destruct (decide (k' = k)) as [->|Hne].
    + rewrite lookup_insert_eq in Hacc. injection Hacc as ->. left. by left.
    + rewrite lookup_insert_ne in Hacc by done. by right.
Qed.

Section more_row_writes.
Context (file1 file2 : ParsedFile.t).
Context (v1 : string → value) (vm : ColumnMapping.t → value) (v2 : string → value).

(** Among correspondences with the same merged name, the last one of the
    list decides the field. *)
Lemma row_mapped_last (before after : list ColumnMapping.t) (m : ColumnMapping.t) :
  mergedName m ≠ "__proto__" →
  mergedName m ∉ mergedName <$> after →
  ¬ unmapped2 file2 (before ++ m :: after) (mergedName m) →
  assign (rowWrites file1 file2 (before ++ m :: after) v1 vm v2) ∅ !! mergedName m
  = Some (vm m).
Proof.
  intros Hplain Hlast Hfree. unfold rowWrites. rewrite !assign_app.
  rewrite assign_untouched by (by rewrite third_loop_keys).
  rewrite fmap_app, fmap_cons, assign_app, assign_cons.
  rewrite assign_untouched by (by rewrite second_loop_keys).
  by apply lookup_setProperty_eq.
Qed.

(** Every field of the row comes from one of the three loops. *)
Lemma row_fields (mappings : list ColumnMapping.t) (k : string) (v : value) :
  assign (rowWrites file1 file2 mappings v1 vm v2) ∅ !! k = Some v →
  (unmapped1 file1 mappings k ∧ v = v1 k)
  ∨ (∃ m, m ∈ mappings ∧ k = mergedName m ∧ v = vm m)
  ∨ (unmapped2 file2 mappings k ∧ v = v2 k).
Proof.
  intros [Hin|Hempty]%assign_lookup_Some; [|by rewrite lookup_empty in Hempty].
  unfold rowWrites in Hin. rewrite !elem_of_app in Hin.
  destruct Hin as [Hin|[Hin|Hin]].
  - left. split.
    + apply (first_loop_keys file1 mappings v1). apply list_elem_of_fmap.
      by exists (k, v).
    + by eapply elem_of_guarded_writes.
  - right; left. apply list_elem_of_fmap in Hin as (m & [= -> ->] & Hm). eauto.
  - right; right. split.
    + apply (third_loop_keys file2 mappings v2). apply list_elem_of_fmap.
      by exists (k, v).
    + by eapply elem_of_guarded_writes.
Qed.
End more_row_writes.

(** X10: mergeFiles, a merged name used twice.  When several correspondences
    carry the same merged name, the last of them in the list decides the
    field (provided no output column is named [__proto__] and the merged
    name is not also an unmapped column of file2): rows from file1 hold what
    their source row yields at its [column1], rows from file2 at its
    [column2]. *)
Theorem shared_mergedName_last_wins (file1 file2 : ParsedFile.t)
    (before after : list ColumnMapping.t) (m : ColumnMapping.t) :
  plainOutputNames file1 file2 (before ++ m :: after) →
  mergedName m ∉ mergedName <$> after →
  ¬ unmapped2 file2 (before ++ m :: after) (mergedName m) →
  (∀ i row, ParsedFile.data file1 !! i = Some row →
     ∃ out, MergeResult.data (mergeFiles file1 file2 (before ++ m :: after)) !! i
            = Some out
            ∧ out !! mergedName m = Some (get row (column1 m)))
  ∧ (∀ i row, ParsedFile.data file2 !! i = Some row →
     ∃ out, MergeResult.data (mergeFiles file1 file2 (before ++ m :: after))
              !! (length (ParsedFile.data file1) + i) = Some out
            ∧ out !! mergedName m = Some (get row (column2 m))).
Proof.
  intros Hplain Hlast Hfree.
  destruct (plain_names _ _ _ Hplain) as (_ & Hname & _ & _).
  assert (Hm : mergedName m ≠ "__proto__").
  { apply Hname. apply elem_of_app. right. by left. }
  split; intros i row Hrow; eexists; split.
  - by apply mergeFiles_row1.
  - rewrite mergedRow1_writes.
    by apply (row_mapped_last _ _ _ (λ m, get row (column1 m))).
  - by apply mergeFiles_row2.
  - rewrite mergedRow2_writes.
    by apply (row_mapped_last _ _ _ (λ m, get row (column2 m))).
Qed.

(** Two correspondences named ["x"]: the field holds column ["b"] of file1's
    row and column ["d"] of file2's row, the sources of the second one. *)
Lemma shared_mergedName_last_wins_witness :
  plainOutputNames twinA twinB twinMappings
  ∧ ∃ out1 out2,
    MergeResult.data (mergeFiles twinA twinB twinMappings) !! 0 = Some out1
    ∧ out1 !! "x" = Some (VString "b1")
    ∧ MergeResult.data (mergeFiles twinA twinB twinMappings) !! 1 = Some out2
    ∧ out2 !! "x" = Some (VString "d1").
Proof.
  assert (Hp : plainOutputNames twinA twinB twinMappings).
  { apply (bool_decide_unpack _). vm_compute. exact I. }
  split; [exact Hp|].
  destruct (shared_mergedName_last_wins twinA twinB
              [ColumnMapping.mk "a" "c" 1 "first" "x"] []
              (ColumnMapping.mk "b" "d" 1 "second" "x")) as [H1 H2].
  - exact Hp.
  - apply not_elem_of_nil.
  - apply (bool_decide_unpack _). vm_compute. exact I.
  - destruct (H1 0 _ eq_refl) as (out1 & Hout1 & Hx1).
    destruct (H2 0 _ eq_refl) as (out2 & Hout2 & Hx2).
    exists out1, out2. split; [exact Hout1|]. split; [exact Hx1|].
    split; [exact Hout2|exact Hx2].
Defined.

(** X11: mergeFiles, where every field comes from.  A field that an output
    row built from a row of file1 owns is what that row yields (its own
    property, or else what it inherits from [Object.prototype]) under an
    unmapped column of file1 or at the [column1] of a correspondence with
    that merged name, or is [null] under an unmapped column of file2; for a
    row of file2 symmetrically.  No field holds anything else, and nothing
    is taken from another row.  Stated for output columns not named
    [__proto__]. *)
Theorem merged_fields_provenance (file1 file2 : ParsedFile.t)
    (mappings : list ColumnMapping.t) :
  plainOutputNames file1 file2 mappings →
  (∀ i row, ParsedFile.data file1 !! i = Some row →
     ∃ out, MergeResult.data (mergeFiles file1 file2 mappings) !! i = Some out
       ∧ ∀ k v, out !! k = Some v →
           (unmapped1 file1 mappings k ∧ v = get row k)
           ∨ (∃ m, m ∈ mappings ∧ k = mergedName m ∧ v = get row (column1 m))
           ∨ (unmapped2 file2 mappings k ∧ v = VNull))
  ∧ (∀ i row, ParsedFile.data file2 !! i = Some row →
     ∃ out, MergeResult.data (mergeFiles file1 file2 mappings)
              !! (length (ParsedFile.data file1) + i) = Some out
       ∧ ∀ k v, out !! k = Some v →
           (unmapped1 file1 mappings k ∧ v = VNull)
           ∨ (∃ m, m ∈ mappings ∧ k = mergedName m ∧ v = get row (column2 m))
           ∨ (unmapped2 file2 mappings k ∧ v = get row k)).
Proof.
  intros _. split; intros i row Hrow; eexists; split.
  - by apply mergeFiles_row1.
  - intros k v. rewrite mergedRow1_writes. apply row_fields.
  - by apply mergeFiles_row2.
  - intros k v. rewrite mergedRow2_writes. apply row_fields.
Qed.

(** At the scenario: the fields of the row built from file1's row. *)
Lemma merged_fields_provenance_witness :
  plainOutputNames scenarioA scenarioB scenarioMappings
  ∧ ∀ i row, ParsedFile.data scenarioA !! i = Some row →
     ∃ out, MergeResult.data (mergeFiles scenarioA scenarioB scenarioMappings) !! i
            = Some out
       ∧ ∀ k v, out !! k = Some v →
           (unmapped1 scenarioA scenarioMappings k ∧ v = get row k)
           ∨ (∃ m, m ∈ scenarioMappings ∧ k = mergedName m
                   ∧ v = get row (column1 m))
           ∨ (unmapped2 scenarioB scenarioMappings k ∧ v = VNull).
Proof.
  assert (Hp : plainOutputNames scenarioA scenarioB scenarioMappings).
  { apply (bool_decide_unpack _). vm_compute. exact I. }
  split; [exact Hp|].
  exact (proj1 (merged_fields_provenance scenarioA scenarioB scenarioMappings Hp)).
Defined.

Lemma columnsOf_fmap (ms ms' : list ColumnMapping.t) :
  columnsOf <$> ms = columnsOf <$> ms' →
  column1 <$> ms = column1 <$> ms'
  ∧ column2 <$> ms = column2 <$> ms'
  ∧ mergedName <$> ms = mergedName <$> ms'
  ∧ ∀ row : gmap string value,
      (λ m, (mergedName m, get row (column1 m))) <$> ms
      = (λ m, (mergedName m, get row (column1 m))) <$> ms'
      ∧ (λ m, (mergedName m, get row (column2 m))) <$> ms
        = (λ m, (mergedName m, get row (column2 m))) <$> ms'.
Proof.
  intros Heq.
  assert (Hvia : ∀ {B} (f : string * string * string → B),
            (f ∘ columnsOf) <$> ms = (f ∘ columnsOf) <$> ms').
  { intros B f. by rewrite !list_fmap_compose, Heq. }
  split; [exact (Hvia _ (λ c, c.1.1))|].
  split; [exact (Hvia _ (λ c, c.1.2))|].
  split; [exact (Hvia _ (λ c, c.2))|].
  intros row. split.
  - exact (Hvia _ (λ c, (c.2, get row c.1.1))).
  - exact (Hvia _ (λ c, (c.2, get row c.1.2))).
Qed.

(** X12: mergeFiles, confidence and reason.  The headers and the rows of the
    merge depend on a correspondence only through [column1], [column2] and
    [mergedName]: a correspondence is applied in the same way whatever its
    confidence and its reason. *)
Theorem mergeFiles_ignores_confidence (file1 file2 : ParsedFile.t)
    (mappings mappings' : list ColumnMapping.t) :
  columnsOf <$> mappings = columnsOf <$> mappings' →
  MergeResult.headers (mergeFiles file1 file2 mappings)
  = MergeResult.headers (mergeFiles file1 file2 mappings')
  ∧ MergeResult.data (mergeFiles file1 file2 mappings)
    = MergeResult.data (mergeFiles file1 file2 mappings').
Proof.
  intros (H1 & H2 & Hm & Hrows)%columnsOf_fmap.
  assert (Hused : usedColumns1_of mappings = usedColumns1_of mappings').
  { unfold usedColumns1_of. by rewrite H1. }
  assert (Hmap : dom (mappingMap_of mappings) = dom (mappingMap_of mappings')).
  { unfold mappingMap_of. by rewrite !mappingMap_dom_from, H2. }
  split.
  - unfold mergeFiles, mergedHeaders. cbn [MergeResult.headers].
    by rewrite Hused, Hmap, Hm.
  - rewrite !mergeFiles_data. f_equal; apply list_fmap_ext; intros _ row _.
    + rewrite !mergedRow1_writes. unfold rowWrites.
      by rewrite Hused, Hmap, (proj1 (Hrows row)).
    + rewrite !mergedRow2_writes. unfold rowWrites.
      by rewrite Hused, Hmap, (proj2 (Hrows row)).
Qed.

(** The scenario with a confidence of 0 instead of 0.9. *)
Lemma mergeFiles_ignores_confidence_witness :
  columnsOf <$> scenarioMappings = columnsOf <$> doubtfulMappings
  ∧ MergeResult.headers (mergeFiles scenarioA scenarioB scenarioMappings)
    = MergeResult.headers (mergeFiles scenarioA scenarioB doubtfulMappings)
  ∧ MergeResult.data (mergeFiles scenarioA scenarioB scenarioMappings)
    = MergeResult.data (mergeFiles scenarioA scenarioB doubtfulMappings).
Proof.
  assert (H : columnsOf <$> scenarioMappings = columnsOf <$> doubtfulMappings)
    by reflexivity.
  split; [exact H|].
  exact (mergeFiles_ignores_confidence scenarioA scenarioB _ _ H).
Defined.

(** The scenario meets the conditions under which the header list has no
    repeated name. *)
Lemma mergedHeaders_NoDup_witness :
  NoDup (mergedHeaders scenarioA scenarioB scenarioMappings).
Proof.
  apply mergedHeaders_NoDup.
  - apply (bool_decide_unpack _). vm_compute. exact I.
  - apply (bool_decide_unpack _). vm_compute. exact I.
  - apply (bool_decide_unpack _). vm_compute. exact I.
  - intros h [Hin Hnot]. cbn in Hin, Hnot. set_solver.
  - intros h [Hin Hnot]. cbn in Hin, Hnot. set_solver.
  - intros h [Hin Hnot] [Hin2 Hnot2]. cbn in *. set_solver.
Defined.

(** ** The merge route, beyond the specification *)

(** X14: The merge route, order of the checks.  For a body other than [null]: a
    missing file is reported as such even when the mappings are no array
    either; the mappings are only looked at when both files are there. *)
Theorem POST_checks_files_first (payload : value) :
  payload ≠ VNull → payload ≠ VUndefined →
  (truthy (payloadField payload "file1") = false
   ∨ truthy (payloadField payload "file2") = false →
   ∀ (Out : Type)
     (engine : RequestFile.t → RequestFile.t → list value → completion Out),
     POST engine (Return payload)
     = mkResponse (ErrorBody "Both files are required") 400)
  ∧ (truthy (payloadField payload "file1") = true →
     truthy (payloadField payload "file2") = true →
     isArray (payloadField payload "mappings") = false →
     ∀ (Out : Type)
       (engine : RequestFile.t → RequestFile.t → list value → completion Out),
       POST engine (Return payload)
       = mkResponse (ErrorBody "Mappings must be an array") 400).
Proof.
  intros Hnull Hundef. split.
  - intros Hmissing Out engine. rewrite POST_on_body by done.
    destruct Hmissing as [->| ->]; [done|].
    by destruct (truthy (payloadField payload "file1")).
  - intros H1 H2 H3 Out engine. rewrite POST_on_body by done.
    by rewrite H1, H2, H3.
Qed.

Lemma POST_checks_files_first_witness :
  doublyInvalidRequest ≠ VNull ∧ doublyInvalidRequest ≠ VUndefined
  ∧ isArray (payloadField doublyInvalidRequest "mappings") = false
  ∧ POST mergeFiles_on_payload (Return doublyInvalidRequest)
    = mkResponse (ErrorBody "Both files are required") 400.
Proof.
  assert (H1 : doublyInvalidRequest ≠ VNull) by discriminate.
  assert (H2 : doublyInvalidRequest ≠ VUndefined) by discriminate.
  split; [exact H1|]. split; [exact H2|]. split; [reflexivity|].
  apply (proj1 (POST_checks_files_first doublyInvalidRequest H1 H2)).
  left. reflexivity.
Defined.

(** ** The column analysis route *)

Lemma join_items (v : value) :
  join v = if isArray v && forallb toStringReturns (items v)
           then Return (items v) else Throw.
Proof. by destruct v. Qed.

Lemma promptBuilds_needs_array (file : value) :
  isArray (payloadField file "headers") = false → promptBuilds file = false.
Proof.
  intros H. unfold promptBuilds. rewrite H. by rewrite andb_false_r.
Qed.

(** The handler on a body that is neither [null] nor [undefined]. *)
Lemma POST_analyze_on_body {Out : Type}
    (generateObject : PromptInput.t → completion Out) (payload : value) :
  payload ≠ VNull → payload ≠ VUndefined →
  POST_analyze generateObject (Return payload)
  = if negb (truthy (payloadField payload "file1"))
       || negb (truthy (payloadField payload "file2"))
    then mkResponse (ErrorBody "Both files are required") 400
    else if promptBuilds (payloadField payload "file1")
            && promptBuilds (payloadField payload "file2")
    then match generateObject (promptInput payload) with
         | Return object => mkResponse (ResultBody object) 200
         | Throw => mkResponse (ErrorBody "Failed to analyze columns") 500
         end
    else mkResponse (ErrorBody "Failed to analyze columns") 500.
Proof.
  intros Hnull Hundef. unfold POST_analyze, POST_analyze_try.
  cbn [mbind completion_bind].
  rewrite !(getProperty_payloadField payload) by done.
  cbn [mbind completion_bind].
  destruct (truthy (payloadField payload "file1")) eqn:H1; [|done].
  destruct (truthy (payloadField payload "file2")) eqn:H2; [|done].
  cbn [negb orb].
  apply truthy_not_nullish in H1 as [? ?]. apply truthy_not_nullish in H2 as [? ?].
  rewrite !getProperty_payloadField by done.
  cbn [mbind completion_bind]. rewrite !join_items.
  unfold promptBuilds, ToString.
  destruct (toStringReturns (payloadField (payloadField payload "file1") "name"));
    [|done].
  destruct (isArray (payloadField (payloadField payload "file1") "headers"));
    [|done].
  destruct (forallb toStringReturns
              (items (payloadField (payloadField payload "file1") "headers")));
    [|done].
  cbn [mbind completion_bind andb].
  destruct (toStringReturns (payloadField (payloadField payload "file2") "name"));
    [|done].
  destruct (isArray (payloadField (payloadField payload "file2") "headers"));
    [|done].
  destruct (forallb toStringReturns
              (items (payloadField (payloadField payload "file2") "headers")));
    [|done].
  cbn [mbind completion_bind andb]. unfold promptInput. cbv zeta.
  by destruct (generateObject _).
Qed.

(** X15: The analysis route, missing files.  For a body other than [null], the
    answer is a 400 exactly when [file1] or [file2] is missing (falsy); it
    is then the same answer whatever the model would say: the model is not
    called. *)
Theorem analyze_rejects_missing_file (payload : value) :
  payload ≠ VNull → payload ≠ VUndefined →
  (truthy (payloadField payload "file1") = false
   ∨ truthy (payloadField payload "file2") = false →
   ∀ (Out : Type) (generateObject : PromptInput.t → completion Out),
     POST_analyze generateObject (Return payload)
     = mkResponse (ErrorBody "Both files are required") 400)
  ∧ (∀ (Out : Type) (generateObject : PromptInput.t → completion Out),
       status (POST_analyze generateObject (Return payload)) = 400
       ↔ truthy (payloadField payload "file1") = false
         ∨ truthy (payloadField payload "file2") = false).
Proof.
  intros Hnull Hundef. split.
  - intros Hmissing Out g. rewrite POST_analyze_on_body by done.
    destruct Hmissing as [->| ->]; [done|].
    by destruct (truthy (payloadField payload "file1")).
  - intros Out g. rewrite POST_analyze_on_body by done.
    destruct (truthy (payloadField payload "file1"));
      destruct (truthy (payloadField payload "file2")); cbn [negb orb status].
    + split; [|by intros [|]].
      destruct (_ && _); [destruct (g _)|]; cbn [status]; discriminate.
    + split; [by right|done].
    + split; [by left|done].
    + split; [by left|done].
Qed.

Lemma analyze_rejects_missing_file_witness :
  doublyInvalidRequest ≠ VNull ∧ doublyInvalidRequest ≠ VUndefined
  ∧ ∀ (Out : Type) (generateObject : PromptInput.t → completion Out),
      POST_analyze generateObject (Return doublyInvalidRequest)
      = mkResponse (ErrorBody "Both files are required") 400.
Proof.
  assert (H1 : doublyInvalidRequest ≠ VNull) by discriminate.
  assert (H2 : doublyInvalidRequest ≠ VUndefined) by discriminate.
  split; [exact H1|]. split; [exact H2|].
  apply (proj1 (analyze_rejects_missing_file doublyInvalidRequest H1 H2)).
  left. reflexivity.
Defined.

(** X16: The analysis route, shape of the files.  The files are only checked
    for presence.  When both are present, the model is called exactly when
    the prompt can be built from both: the name converts to a string, the
    [headers] are an array and every header converts to a string.  The
    completion of the model then decides the answer.  Otherwise building
    the prompt throws, in particular when the [headers] of a file are no
    array, and the answer is the generic 500, not a 400, without the model
    being called. *)
Theorem analyze_needs_array_headers (payload : value) :
  payload ≠ VNull → payload ≠ VUndefined →
  truthy (payloadField payload "file1") = true →
  truthy (payloadField payload "file2") = true →
  (promptBuilds (payloadField payload "file1") = false
   ∨ promptBuilds (payloadField payload "file2") = false →
   ∀ (Out : Type) (generateObject : PromptInput.t → completion Out),
     POST_analyze generateObject (Return payload)
     = mkResponse (ErrorBody "Failed to analyze columns") 500)
  ∧ (isArray (payloadField (payloadField payload "file1") "headers") = false
     ∨ isArray (payloadField (payloadField payload "file2") "headers") = false →
     ∀ (Out : Type) (generateObject : PromptInput.t → completion Out),
       POST_analyze generateObject (Return payload)
       = mkResponse (ErrorBody "Failed to analyze columns") 500)
  ∧ (promptBuilds (payloadField payload "file1") = true →
     promptBuilds (payloadField payload "file2") = true →
     ∀ (Out : Type) (generateObject : PromptInput.t → completion Out),
       POST_analyze generateObject (Return payload)
       = match generateObject (promptInput payload) with
         | Return object => mkResponse (ResultBody object) 200
         | Throw => mkResponse (ErrorBody "Failed to analyze columns") 500
         end).
Proof.
  intros Hnull Hundef H1 H2.
  assert (Hthrows :
    promptBuilds (payloadField payload "file1") = false
    ∨ promptBuilds (payloadField payload "file2") = false →
    ∀ (Out : Type) (generateObject : PromptInput.t → completion Out),
      POST_analyze generateObject (Return payload)
      = mkResponse (ErrorBody "Failed to analyze columns") 500).
  { intros Hshape Out g. rewrite POST_analyze_on_body, H1, H2 by done.
    cbn [negb orb]. destruct Hshape as [->| ->]; [done|].
    by rewrite andb_false_r. }
  split; [exact Hthrows|]. split.
  - intros [Ha|Ha]; apply Hthrows; [left|right]; by apply promptBuilds_needs_array.
  - intros Ha1 Ha2 Out g. rewrite POST_analyze_on_body, H1, H2 by done.
    by rewrite Ha1, Ha2.
Qed.

(** Files that are [true]; a name with a [toString] key; the request of the
    scenario. *)
Lemma analyze_needs_array_headers_witness :
  (∀ (Out : Type) (generateObject : PromptInput.t → completion Out),
     POST_analyze generateObject (Return shapelessRequest)
     = mkResponse (ErrorBody "Failed to analyze columns") 500)
  ∧ (∀ (Out : Type) (generateObject : PromptInput.t → completion Out),
     POST_analyze generateObject (Return unprintableRequest)
     = mkResponse (ErrorBody "Failed to analyze columns") 500)
  ∧ (∀ (Out : Type) (generateObject : PromptInput.t → completion Out),
       POST_analyze generateObject (Return analyzeRequest)
       = match generateObject (promptInput analyzeRequest) with
         | Return object => mkResponse (ResultBody object) 200
         | Throw => mkResponse (ErrorBody "Failed to analyze columns") 500
         end).
Proof.
  split; [|split].
  - apply (proj1 (proj2 (analyze_needs_array_headers shapelessRequest
                    ltac:(discriminate) ltac:(discriminate) eq_refl eq_refl))).
    left. reflexivity.
  - apply (proj1 (analyze_needs_array_headers unprintableRequest
                    ltac:(discriminate) ltac:(discriminate) eq_refl eq_refl)).
    left. reflexivity.
  - apply (proj2 (proj2 (analyze_needs_array_headers analyzeRequest
                    ltac:(discriminate) ltac:(discriminate) eq_refl eq_refl)));
      reflexivity.
Defined.

(** ** The FileMerger component *)

Lemma filterFrom_all {A} (s : nat) (keep : A → nat → bool) (l : list A) :
  (∀ (x : A) (i : nat), (s ≤ i)%nat → keep x i = true) → filterFrom s keep l = l.
Proof.
  revert s. induction l as [|x l IH]; intros s Hkeep; [done|].
  cbn. rewrite Hkeep by done. f_equal. apply IH. intros y i ?. apply Hkeep. lia.
Qed.

(** Filtering on "index differs from [s + j]", counting from [s], deletes
    the element at position [j]. *)
Lemma filterFrom_delete {A} (s j : nat) (keep : A → nat → bool) (l : list A) :
  (∀ (x : A) (i : nat), keep x i = negb (i =? s + j)%nat) →
  filterFrom s keep l = delete j l.
Proof.
  revert s j. induction l as [|x l IH]; intros s j Hkeep; [done|].
  cbn [filterFrom]. rewrite Hkeep. destruct j as [|j].
  - rewrite Nat.add_0_r, Nat.eqb_refl. cbn.
    apply filterFrom_all. intros y i Hi. rewrite Hkeep.
    apply negb_true_iff, Nat.eqb_neq. lia.
  - replace (s =? s + S j)%nat with false
      by (symmetry; apply Nat.eqb_neq; lia).
    cbn. f_equal. apply IH. intros y i. rewrite Hkeep. do 2 f_equal. lia.
Qed.

Lemma delete_beyond {A} (l : list A) (i : nat) :
  (length l ≤ i)%nat → delete i l = l.
Proof.
  revert i. induction l as [|x l IH]; intros i Hi; [done|].
  destruct i as [|i]; cbn in *; [lia|]. f_equal. apply IH. lia.
Qed.

(** X17: removeFile.  Removing at a valid index deletes that file and keeps the
    others in order; at an index past the end the files stay as they are.
    In both cases the mappings and the merge result are cleared. *)
Theorem removeFile_effect (index : nat) (st : FileMerger.state) :
  FileMerger.files (removeFile index st) = delete index (FileMerger.files st)
  ∧ FileMerger.mappings (removeFile index st) = []
  ∧ FileMerger.mergeResult (removeFile index st) = None
  ∧ ((index < length (FileMerger.files st))%nat →
     S (length (FileMerger.files (removeFile index st)))
     = length (FileMerger.files st))
  ∧ ((length (FileMerger.files st) ≤ index)%nat →
     FileMerger.files (removeFile index st) = FileMerger.files st).
Proof.
  assert (Hfiles : FileMerger.files (removeFile index st)
                   = delete index (FileMerger.files st)).
  { unfold removeFile. cbn [FileMerger.files]. by apply filterFrom_delete. }
  split; [done|]. split; [done|]. split; [done|]. rewrite Hfiles. split.
  - intros Hlt. rewrite length_delete; [lia|]. by apply lookup_lt_is_Some.
  - apply delete_beyond.
Qed.

(** The files the loop of [onDrop] collects are those that parse, in the
    order of the upload. *)
Lemma parseEach_parsed (fs : list File.t) :
  (parseEach fs).1 = omap parsedOrSkipped fs.
Proof.
  unfold parseEach, forEach.
  assert (Hgen : ∀ acc : list FileWithPreview.t * list toast,
    (foldl (λ acc file,
        match parseFile file with
        | Resolved parsed => (push acc.1 (FileWithPreview.mk parsed file), acc.2)
        | Rejected reason =>
            (acc.1, push acc.2 (ToastParseError (File.name file) reason))
        end) acc fs).1 = acc.1 ++ omap parsedOrSkipped fs).
  { induction fs as [|f fs IH]; intros acc; cbn [foldl omap list_omap].
    - by rewrite app_nil_r.
    - rewrite IH. unfold parsedOrSkipped at 2.
      destruct (parseFile f); cbn; [|done].
      unfold push. by rewrite <- app_assoc. }
  by rewrite Hgen.
Qed.

Lemma omap_length_le {A B} (f : A → option B) (l : list A) :
  (length (omap f l) ≤ length l)%nat.
Proof.
  induction l as [|x l IH]; [done|]. cbn. destruct (f x); cbn; lia.
Qed.

(** What [onDrop] does to the state. *)
Lemma onDrop_state (filesLength : nat) (acceptedFiles : list File.t)
    (st : FileMerger.state) :
  (onDrop filesLength acceptedFiles st).1
  = if decide (length (filter isCsvOrExcel acceptedFiles) = 0%nat) then st
    else if decide (2 < filesLength + length (filter isCsvOrExcel acceptedFiles))%nat
    then st
    else FileMerger.mk
           (FileMerger.files st
            ++ omap parsedOrSkipped (filter isCsvOrExcel acceptedFiles))
           false (FileMerger.mappings st) (FileMerger.mergeResult st)
           (FileMerger.showPreview st).
Proof.
  unfold onDrop. cbv zeta.
  destruct (decide (length _ = 0%nat)); [done|].
  destruct (decide (2 < _)%nat); [done|].
  rewrite <- parseEach_parsed.
  by destruct (parseEach _).
Qed.

(** X18: onDrop, which files are added.  Files whose extension is not csv, xlsx
    or xls are ignored.  If none is left, or if those left would bring the
    list above two files, nothing changes: not even the files that would
    fit are added.  Otherwise the files left that parse are appended in
    upload order, a file that fails to parse is skipped without holding
    back the others, and processing is over. *)
Theorem onDrop_adds_parsed_files (filesLength : nat) (acceptedFiles : list File.t)
    (st : FileMerger.state) :
  (filter isCsvOrExcel acceptedFiles = []
   ∨ (2 < filesLength + length (filter isCsvOrExcel acceptedFiles))%nat →
   (onDrop filesLength acceptedFiles st).1 = st)
  ∧ (filter isCsvOrExcel acceptedFiles ≠ [] →
     (filesLength + length (filter isCsvOrExcel acceptedFiles) ≤ 2)%nat →
     FileMerger.files (onDrop filesLength acceptedFiles st).1
     = FileMerger.files st
       ++ omap parsedOrSkipped (filter isCsvOrExcel acceptedFiles)
     ∧ FileMerger.isProcessing (onDrop filesLength acceptedFiles st).1 = false
     ∧ FileMerger.mappings (onDrop filesLength acceptedFiles st).1
       = FileMerger.mappings st
     ∧ FileMerger.mergeResult (onDrop filesLength acceptedFiles st).1
       = FileMerger.mergeResult st).
Proof.
  rewrite onDrop_state. split.
  - intros [Hnone|Hmany].
    + by rewrite Hnone.
    + destruct (decide (length _ = 0%nat)); [done|].
      by rewrite decide_True.
  - intros Hsome Hfit.
    rewrite decide_False by (by destruct (filter isCsvOrExcel acceptedFiles)).
    by rewrite decide_False by lia.
Qed.

(** A sheet, a file without extension and a CSV file dropped on the empty
    component: the sheet and the CSV file are listed. *)
Lemma onDrop_adds_parsed_files_witness :
  FileMerger.files (onDrop 0 [sheetFile; readmeFile; csvFile] emptyState).1
  = [FileWithPreview.mk sheetParsed sheetFile; FileWithPreview.mk csvParsed csvFile].
Proof.
  destruct (onDrop_adds_parsed_files 0 [sheetFile; readmeFile; csvFile] emptyState)
    as [_ Hadd].
  destruct Hadd as (Hfiles & _).
  - vm_compute. discriminate.
  - vm_compute. lia.
  - rewrite Hfiles. vm_compute. reflexivity.
Defined.

(** X19: onDrop, never more than two files.  When the callback knows the current
    number of files and that number is at most two, the list still has at
    most two files afterwards, the files already listed are kept in front,
    and every listed file is listed with the result of parsing it. *)
Theorem onDrop_keeps_at_most_two (filesLength : nat) (acceptedFiles : list File.t)
    (st : FileMerger.state) :
  filesLength = length (FileMerger.files st) →
  (length (FileMerger.files st) ≤ 2)%nat →
  Forall (λ f, parseFile (FileWithPreview.file f) = Resolved (FileWithPreview.parsed f))
         (FileMerger.files st) →
  (length (FileMerger.files (onDrop filesLength acceptedFiles st).1) ≤ 2)%nat
  ∧ FileMerger.files st
    `prefix_of` FileMerger.files (onDrop filesLength acceptedFiles st).1
  ∧ Forall (λ f, parseFile (FileWithPreview.file f)
                 = Resolved (FileWithPreview.parsed f))
           (FileMerger.files (onDrop filesLength acceptedFiles st).1).
Proof.
  intros -> Hlen Hparsed. rewrite onDrop_state.
  destruct (decide (length _ = 0%nat)); [done|].
  destruct (decide (2 < _)%nat) as [|Hfit]; [done|].
  cbn [FileMerger.files]. split; [|split].
  - rewrite length_app.
    pose proof (omap_length_le parsedOrSkipped (filter isCsvOrExcel acceptedFiles)).
    lia.
  - by apply prefix_app_r.
  - apply Forall_app. split; [done|].
    apply Forall_forall. intros f (file & _ & Hf)%list_elem_of_omap.
    unfold parsedOrSkipped in Hf.
    destruct (parseFile file) eqn:Hp; [|done].
    by injection Hf as <-.
Qed.

Lemma onDrop_keeps_at_most_two_witness :
  (length (FileMerger.files
             (onDrop 0 [sheetFile; readmeFile; csvFile] emptyState).1) ≤ 2)%nat.
Proof.
  apply (onDrop_keeps_at_most_two 0 [sheetFile; readmeFile; csvFile] emptyState).
  - reflexivity.
  - cbn. lia.
  - apply Forall_nil_2.
Defined.
